(** * Header detection and typed-row extraction of the workbook analysers

    A shallow embedding of the three scripts [analyze_excel.py],
    [analyze_excel_v2.py] and [analyze_excel_summary.py], followed by the
    properties of their header detector, field extractor, type inference
    and batch driver.

    Layout: [Py] holds the fragment of the Python runtime the scripts rely
    on (cell values, truthiness, [str], [strip], [strftime], insertion-ordered
    dictionaries); [Xl] the fragment of openpyxl (worksheets, row iteration,
    column letters, loading); [Eff] a state-and-exception monad; [Simple],
    [V2] and [Summary] one script each. *)

From Stdlib Require Import List String Ascii ZArith Lia Bool Arith PeanoNat.
From Stdlib Require Import DecimalString Sorted.
Import ListNotations.
Open Scope list_scope.
Open Scope string_scope.

(* ================================================================== *)
(** ** The Python runtime, as far as the scripts observe it *)
(* ================================================================== *)

Module Py.

(** Characters are the code points below 256, one [ascii] each.  The
    white space of [str.strip()] in that range: TAB..CR, FS..US, SPACE,
    NEL (0x85) and NBSP (0xA0). *)
Definition is_space (c : ascii) : bool :=
  let n := nat_of_ascii c in
  ((9 <=? n) && (n <=? 13) || (28 <=? n) && (n <=? 32)
   || (n =? 133) || (n =? 160))%nat.

Fixpoint lstrip (s : string) : string :=
  match s with
  | EmptyString => EmptyString
  | String c s' => if is_space c then lstrip s' else s
  end.

Fixpoint rstrip (s : string) : string :=
  match s with
  | EmptyString => EmptyString
  | String c s' =>
      match rstrip s' with
      | EmptyString => if is_space c then EmptyString else String c EmptyString
      | r => String c r
      end
  end.

(** [s.strip()] *)
Definition strip (s : string) : string := rstrip (lstrip s).

(** [s.count(c)] for a one-character needle. *)
Fixpoint count (c : ascii) (s : string) : nat :=
  match s with
  | EmptyString => 0
  | String d s' => (if Ascii.eqb c d then 1 else 0) + count c s'
  end.

(** The line feed, ['\n']. *)
Definition newline : ascii := ascii_of_nat 10.

(** [s[:n]] *)
Fixpoint prefix (n : nat) (s : string) : string :=
  match n, s with
  | S n', String c s' => String c (prefix n' s')
  | _, _ => EmptyString
  end.

(** [bool(s)] for a string: non-empty. *)
Definition nonempty (s : string) : bool :=
  match s with EmptyString => false | String _ _ => true end.

(** Decimal numerals. *)
Definition str_nat (n : nat) : string := NilZero.string_of_uint (Nat.to_uint n).
Definition str_int (z : Z) : string := NilZero.string_of_int (Z.to_int z).

Fixpoint zeros (k : nat) : string :=
  match k with 0 => EmptyString | S k' => String "0" (zeros k') end.

(** [n] in decimal, zero-padded on the left to at least [w] digits (the
    [%02d]-style fields of [strftime] and [isoformat]). *)
Definition zpad (w n : nat) : string :=
  let d := str_nat n in zeros (w - String.length d) ++ d.

(** *** Calendar values: [datetime.datetime], [datetime.date], [datetime.time] *)

Record date := mkdate { year : nat; month : nat; day : nat }.
Record time := mktime { hour : nat; minute : nat; second : nat; microsecond : nat }.

Inductive temporal :=
| TDatetime (d : date) (t : time)
| TDate (d : date)
| TTime (t : time).

(** [strftime] substitutes 1900-01-01 for the date of a [time] and 00:00:00
    for the time of a [date]. *)
Definition date_of (x : temporal) : date :=
  match x with
  | TDatetime d _ | TDate d => d
  | TTime _ => mkdate 1900 1 1
  end.

Definition time_of (x : temporal) : time :=
  match x with
  | TDatetime _ t | TTime t => t
  | TDate _ => mktime 0 0 0 0
  end.

(** One [strftime] directive; the scripts use [%Y %m %d %H %M %S] only.
    The year is written with four digits (workbook dates start in 1900). *)
Definition directive (x : temporal) (c : ascii) : string :=
  if Ascii.eqb c "Y" then zpad 4 (year (date_of x))
  else if Ascii.eqb c "m" then zpad 2 (month (date_of x))
  else if Ascii.eqb c "d" then zpad 2 (day (date_of x))
  else if Ascii.eqb c "H" then zpad 2 (hour (time_of x))
  else if Ascii.eqb c "M" then zpad 2 (minute (time_of x))
  else if Ascii.eqb c "S" then zpad 2 (second (time_of x))
  else String "%" (String c EmptyString).

(** [x.strftime(fmt)] *)
Fixpoint strftime (x : temporal) (fmt : string) : string :=
  match fmt with
  | EmptyString => EmptyString
  | String c rest =>
      if Ascii.eqb c "%" then
        match rest with
        | EmptyString => String c EmptyString
        | String k rest' => directive x k ++ strftime x rest'
        end
      else String c (strftime x rest)
  end.

Definition iso_date (d : date) : string :=
  zpad 4 (year d) ++ "-" ++ zpad 2 (month d) ++ "-" ++ zpad 2 (day d).

Definition iso_time (t : time) : string :=
  zpad 2 (hour t) ++ ":" ++ zpad 2 (minute t) ++ ":" ++ zpad 2 (second t)
  ++ (if (microsecond t =? 0)%nat then "" else "." ++ zpad 6 (microsecond t)).

(** [str(x)] of a calendar value: [isoformat] with a blank separator. *)
Definition str_temporal (x : temporal) : string :=
  match x with
  | TDatetime d t => iso_date d ++ " " ++ iso_time t
  | TDate d => iso_date d
  | TTime t => iso_time t
  end.

Definition type_name_temporal (x : temporal) : string :=
  match x with
  | TDatetime _ _ => "datetime"
  | TDate _ => "date"
  | TTime _ => "time"
  end.

(** *** Cell values

    A [float] and a scalar of a kind the scripts do not know by name are
    carried by what the scripts can observe of them: the text [str] gives,
    the truth value, and for the latter the name of its type. *)

Record pyfloat := mkfloat { float_repr : string; float_nonzero : bool }.
Record pyobject := mkobject { obj_type : string; obj_str : string; obj_bool : bool }.

Inductive value :=
| VNone
| VStr (s : string)
| VBool (b : bool)
| VInt (z : Z)
| VFloat (f : pyfloat)
| VTemporal (x : temporal)
| VObject (o : pyobject).

(** [v is None] *)
Definition is_none (v : value) : bool :=
  match v with VNone => true | _ => false end.

(** [isinstance(v, str)] *)
Definition isinstance_str (v : value) : bool :=
  match v with VStr _ => true | _ => false end.

(** [isinstance(v, int)]: [bool] is a subclass of [int]. *)
Definition isinstance_int (v : value) : bool :=
  match v with VInt _ | VBool _ => true | _ => false end.

(** [isinstance(v, float)] *)
Definition isinstance_float (v : value) : bool :=
  match v with VFloat _ => true | _ => false end.

(** [hasattr(v, 'strftime')] *)
Definition has_strftime (v : value) : bool :=
  match v with VTemporal _ => true | _ => false end.

(** [bool(v)] *)
Definition truthy (v : value) : bool :=
  match v with
  | VNone => false
  | VStr s => nonempty s
  | VBool b => b
  | VInt z => negb (Z.eqb z 0)
  | VFloat f => float_nonzero f
  | VTemporal _ => true
  | VObject o => obj_bool o
  end.

(** [str(v)] *)
Definition str (v : value) : string :=
  match v with
  | VNone => "None"
  | VStr s => s
  | VBool b => if b then "True" else "False"
  | VInt z => str_int z
  | VFloat f => float_repr f
  | VTemporal x => str_temporal x
  | VObject o => obj_str o
  end.

(** [type(v).__name__] *)
Definition type_name (v : value) : string :=
  match v with
  | VNone => "NoneType"
  | VStr _ => "str"
  | VBool _ => "bool"
  | VInt _ => "int"
  | VFloat _ => "float"
  | VTemporal x => type_name_temporal x
  | VObject o => obj_type o
  end.

(** [v.strftime(fmt)], on the values that have the method. *)
Definition value_strftime (v : value) (fmt : string) : string :=
  match v with
  | VTemporal x => strftime x fmt
  | _ => EmptyString
  end.

(** [range(a, b)] *)
Definition range (a b : nat) : list nat := seq a (b - a).

(** [enumerate(l, start)] and [enumerate(l)] *)
Definition enumerate_from {A : Type} (start : nat) (l : list A) : list (nat * A) :=
  combine (seq start (List.length l)) l.

Definition enumerate {A : Type} (l : list A) : list (nat * A) :=
  enumerate_from 0 l.

(** [any(l)] *)
Definition any (l : list value) : bool := existsb truthy l.

(** A [dict] with string keys, in insertion order: [d[k] = v] replaces the
    value of a key already present and appends a new key at the end. *)
Definition dict (V : Type) : Type := list (string * V).

Fixpoint dict_set {V : Type} (d : dict V) (k : string) (v : V) : dict V :=
  match d with
  | [] => [(k, v)]
  | (k', v') :: d' =>
      if String.eqb k k' then (k, v) :: d' else (k', v') :: dict_set d' k v
  end.

Fixpoint dict_get {V : Type} (d : dict V) (k : string) : option V :=
  match d with
  | [] => None
  | (k', v') :: d' => if String.eqb k k' then Some v' else dict_get d' k
  end.

Definition dict_keys {V : Type} (d : dict V) : list string := map fst d.

End Py.

(* ================================================================== *)
(** ** openpyxl, as far as the scripts use it *)
(* ================================================================== *)

Module Xl.
Import Py.

(** A worksheet: its title and the cell values, row by row.  Rows may be
    ragged here; openpyxl reads every row out to [max_column]. *)
Record worksheet := mkws { title : string; grid : list (list value) }.

(** [ws.max_row] and [ws.max_column]; both are 1 on a sheet without cells. *)
Definition max_row (ws : worksheet) : nat := Nat.max 1 (List.length (grid ws)).
Definition max_column (ws : worksheet) : nat :=
  Nat.max 1 (list_max (map (@List.length value) (grid ws))).

(** The values of [list(ws.iter_rows(min_row=i, max_row=i))[0]], [i] counted
    from 1: one cell per column up to [max_column], a cell that was never
    written reading [None].  A row below the last one is all [None]. *)
Definition row_values (ws : worksheet) (i : nat) : list value :=
  let r := nth (i - 1) (grid ws) [] in
  (r ++ repeat VNone (max_column ws - List.length r))%list.

(** The values of the rows of [ws.iter_rows(min_row=lo, max_row=hi)]. *)
Definition iter_rows (ws : worksheet) (lo hi : nat) : list (list value) :=
  map (row_values ws) (range lo (hi + 1)).

(** [get_column_letter]: bijective base 26 over A..Z, least significant
    letter computed first.  (openpyxl refuses indices outside 1..18278, far
    beyond the 16384 columns a workbook can hold.) *)
Fixpoint letters (fuel col_idx : nat) : string :=
  match fuel with
  | 0 => EmptyString
  | S fuel' =>
      if (col_idx =? 0)%nat then EmptyString
      else
        let q := col_idx / 26 in
        let r := col_idx mod 26 in
        let '(q', r') := if (r =? 0)%nat then (q - 1, 26) else (q, r) in
        letters fuel' q' ++ String (ascii_of_nat (r' + 64)) EmptyString
  end.

Definition get_column_letter (col_idx : nat) : string := letters col_idx col_idx.

(** The inverse reading of a column label, used to state that labels are
    distinct. *)
Fixpoint column_index_from (acc : nat) (s : string) : nat :=
  match s with
  | EmptyString => acc
  | String c s' => column_index_from (acc * 26 + (nat_of_ascii c - 64)) s'
  end.

Definition column_index_from_string (s : string) : nat := column_index_from 0 s.

(** An exception: the name of its type and [str(e)]. *)
Record exn := mkexn { exn_type : string; exn_msg : string }.

(** [wb.active] is a worksheet or a chart sheet; a chart sheet has a
    [title] but none of [max_row], [max_column], [iter_rows]. *)
Inductive sheet :=
| Worksheet (ws : worksheet)
| Chartsheet (chart_title : string).

Definition sheet_title (sh : sheet) : string :=
  match sh with
  | Worksheet ws => title ws
  | Chartsheet t => t
  end.

Record workbook := mkwb { active : sheet }.

(** What a path resolves to. *)
Inductive file :=
| Missing
| Unreadable (e : exn)
| Xlsx (wb : workbook).

Definition filesystem : Type := string -> file.

(** [os.path.exists] *)
Definition path_exists (fs : filesystem) (p : string) : bool :=
  match fs p with Missing => false | _ => true end.

Definition FileNotFoundError (p : string) : exn :=
  mkexn "FileNotFoundError" ("[Errno 2] No such file or directory: '" ++ p ++ "'").

Definition AttributeError (attr : string) : exn :=
  mkexn "AttributeError" ("'Chartsheet' object has no attribute '" ++ attr ++ "'").

End Xl.

(* ================================================================== *)
(** ** Effects: open archives, script state, exceptions *)
(* ================================================================== *)

Module Eff.
Import Py Xl.

(** The workbook archives currently open, by path. *)
Definition handles : Type := list string.

Inductive outcome (A : Type) :=
| Ok (a : A)
| Raised (e : exn).
Arguments Ok {A} a.
Arguments Raised {A} e.

(** A computation over the open archives and the script's own mutable
    state [L]; an exception leaves the state as it was when raised. *)
Definition M (L A : Type) : Type := handles * L -> outcome A * (handles * L).

Definition ret {L A} (a : A) : M L A := fun s => (Ok a, s).

Definition bind {L A B} (m : M L A) (k : A -> M L B) : M L B :=
  fun s =>
    match m s with
    | (Ok a, s') => k a s'
    | (Raised e, s') => (Raised e, s')
    end.

Definition raise {L A} (e : exn) : M L A := fun s => (Raised e, s).

(** Update of the script's own state. *)
Definition modify {L} (f : L -> L) : M L unit :=
  fun s => (Ok tt, (fst s, f (snd s))).

Declare Scope eff_scope.
Delimit Scope eff_scope with eff.
Notation "x <- m ;; k" := (bind m (fun x => k))
  (at level 61, m at next level, right associativity) : eff_scope.
Notation "m ;; k" := (bind m (fun _ => k))
  (at level 61, right associativity) : eff_scope.

(** A loaded workbook: the archive still attached to it, if any, and its
    content.  Only a workbook loaded with [read_only] keeps its archive. *)
Definition book : Type := option string * workbook.

Fixpoint release (p : string) (h : handles) : handles :=
  match h with
  | [] => []
  | q :: h' => if String.eqb p q then h' else q :: release p h'
  end.

(** [openpyxl.load_workbook(path, data_only=True)]: without [read_only]
    the archive is opened, read whole and closed again before the call
    returns, and the workbook keeps no archive. *)
Definition load_workbook {L} (fs : filesystem) (path : string) : M L book :=
  fun s =>
    match fs path with
    | Missing => (Raised (FileNotFoundError path), s)
    | Unreadable e => (Raised e, s)
    | Xlsx wb => (Ok (None, wb), (release path (path :: fst s), snd s))
    end.

(** [wb.close()]: closes the archive attached to the workbook, and does
    nothing on a workbook that has none. *)
Definition close {L} (wb : book) : M L unit :=
  fun s =>
    match fst wb with
    | Some p => (Ok tt, (release p (fst s), snd s))
    | None => (Ok tt, s)
    end.

(** The first attribute of [ws] that only a worksheet has: the worksheet
    itself on a worksheet, [AttributeError] on a chart sheet. *)
Definition worksheet_attr {L} (sh : sheet) (attr : string) : M L worksheet :=
  match sh with
  | Worksheet ws => ret ws
  | Chartsheet _ => raise (AttributeError attr)
  end.

End Eff.

(* ================================================================== *)
(** ** analyze_excel.py: the simple variant *)
(* ================================================================== *)

Module Simple.
Import Py Xl Eff.
Local Open Scope eff_scope.

(** [sum(1 for v in row_values
         if v is not None and isinstance(v, str) and v.strip())] *)
Definition non_none_count (row_values : list value) : nat :=
  List.length
    (filter (fun v => negb (is_none v) && isinstance_str v
                      && nonempty (strip (str v)))
            row_values).

(** One turn of the detection loop over [enumerate(rows, start=1)]. *)
Definition scan_step (header_row : option nat) (ir : nat * list value)
  : option nat :=
  let '(i, row_values) := ir in
  match header_row with
  | None =>
      if any row_values then
        if (3 <=? non_none_count row_values)%nat then Some i else header_row
      else header_row
  | Some _ => header_row
  end.

(** The loop over [ws.iter_rows(max_row=20)]. *)
Definition detect_header (ws : worksheet) : option nat :=
  fold_left scan_step (enumerate_from 1 (iter_rows ws 1 20)) None.

(** [if header_row is None: header_row = 1] *)
Definition header_row_of (ws : worksheet) : nat :=
  match detect_header ws with
  | None => 1
  | Some i => i
  end.

(** The [headers] list: every column with its letter, [""] for [None]. *)
Definition get_headers (ws : worksheet) (header_row : nat)
  : list (string * value) :=
  map (fun '(idx, v) =>
         (get_column_letter (idx + 1), if is_none v then VStr "" else v))
      (enumerate (row_values ws header_row)).

(** What the script prints about the header, as data. *)
Record report := mkreport {
  header_row : nat;
  headers : list (string * value);
  printed_headers : list (string * value)
}.

Definition analyze_sheet (ws : worksheet) : report :=
  let hr := header_row_of ws in
  let hs := get_headers ws hr in
  mkreport hr hs (filter (fun h => truthy (snd h)) hs).

(** *** The sample rows and the types of the first data row *)

(** The type tag printed for a value of the first data row. *)
Definition dtype (v : value) : string :=
  if is_none v then "empty"
  else if isinstance_str v then "string"
  else if isinstance_int v then "integer"
  else if isinstance_float v then "number"
  else if has_strftime v then "date/datetime"
  else type_name v.

(** One printed line of types: column letter, header value, tag, value. *)
Record typed_cell := mktyped {
  t_column : string;
  t_header : value;
  t_type : string;
  t_value : value
}.

(** The loop over [enumerate(headers)] for one row: a header that is
    empty, or lies beyond the row, prints nothing. *)
Definition data_types (headers : list (string * value))
  (row_values : list value) : list typed_cell :=
  flat_map
    (fun '(idx, (col_letter, header_value)) =>
       if truthy header_value && (idx <? List.length row_values)%nat
       then let value := nth idx row_values VNone in
            [mktyped col_letter header_value (dtype value) value]
       else [])
    (enumerate headers).

(** [ws.max_row] once the detection loop has run: reading the rows up to
    20 creates their cells, so the sheet has at least 20 rows from then
    on. *)
Definition max_row_after_scan (ws : worksheet) : nat := Nat.max 20 (max_row ws).

(** The loop over the rows [header_row + 1 .. header_row + 5], clipped to
    the rows the sheet has by then: each printed row, and with the first
    one its types. *)
Definition sample_rows (ws : worksheet) (header_row : nat)
  (headers : list (string * value))
  : list (nat * list value * list typed_cell) :=
  map (fun i =>
         let row_values := row_values ws i in
         (i, row_values,
          if (i =? header_row + 1)%nat then data_types headers row_values
          else []))
      (range (header_row + 1)
             (Nat.min (header_row + 6) (max_row_after_scan ws + 1))).

(** [analyze_excel(filepath, name)]; [None] is the early return on a
    missing file.  Console output is not modelled. *)
Definition analyze_excel (fs : filesystem) (filepath name : string)
  : M unit (option report) :=
  if negb (path_exists fs filepath) then ret None
  else
    wb <- load_workbook fs filepath ;;
    ws <- worksheet_attr (active (snd wb)) "max_row" ;;
    let rep := analyze_sheet ws in
    close wb ;;
    ret (Some rep).

(** The driver: each call under its own [try ... except Exception]. *)
Fixpoint run (fs : filesystem) (files : list (string * string)) (h : handles)
  : list (outcome (option report)) * handles :=
  match files with
  | [] => ([], h)
  | (filepath, name) :: rest =>
      let '(o, (h', _)) := analyze_excel fs filepath name (h, tt) in
      let '(os, h'') := run fs rest h' in
      (o :: os, h'')
  end.

End Simple.

(* ================================================================== *)
(** ** analyze_excel_v2.py: the best-qualifying variant *)
(* ================================================================== *)

Module V2.
Import Py Xl Eff.
Local Open Scope eff_scope.

(** One element of [result['headers']]. *)
Record header := mkheader { column : string; name : string; index : nat }.

(** One element of [result['first_20_rows']]. *)
Record dumped_row := mkdumped { row_num : nat; values : list value }.

(** One value of a [row_dict]. *)
Record entry := mkentry { e_header : string; e_value : value; e_type : string }.

(** One element of [result['sample_data']]. *)
Record sample := mksample { s_row_num : nat; s_data : dict entry }.

(** The [result] dictionary. *)
Record result := mkresult {
  r_name : string;
  r_filepath : string;
  r_exists : bool;
  r_error : option string;
  r_sheet_name : option string;
  r_total_rows : nat;
  r_total_columns : nat;
  r_header_row : option nat;
  r_headers : list header;
  r_first_20_rows : list dumped_row;
  r_sample_data : list sample
}.

(** The dictionary as first built: only [name] and [filepath] are given. *)
Definition initial (filepath name : string) : result :=
  mkresult name filepath false None None 0 0 None [] [] [].

Definition set_exists (b : bool) (r : result) : result :=
  mkresult (r_name r) (r_filepath r) b (r_error r) (r_sheet_name r)
    (r_total_rows r) (r_total_columns r) (r_header_row r) (r_headers r)
    (r_first_20_rows r) (r_sample_data r).
Definition set_error (e : option string) (r : result) : result :=
  mkresult (r_name r) (r_filepath r) (r_exists r) e (r_sheet_name r)
    (r_total_rows r) (r_total_columns r) (r_header_row r) (r_headers r)
    (r_first_20_rows r) (r_sample_data r).
Definition set_sheet_name (t : option string) (r : result) : result :=
  mkresult (r_name r) (r_filepath r) (r_exists r) (r_error r) t
    (r_total_rows r) (r_total_columns r) (r_header_row r) (r_headers r)
    (r_first_20_rows r) (r_sample_data r).
Definition set_total_rows (n : nat) (r : result) : result :=
  mkresult (r_name r) (r_filepath r) (r_exists r) (r_error r) (r_sheet_name r)
    n (r_total_columns r) (r_header_row r) (r_headers r)
    (r_first_20_rows r) (r_sample_data r).
Definition set_total_columns (n : nat) (r : result) : result :=
  mkresult (r_name r) (r_filepath r) (r_exists r) (r_error r) (r_sheet_name r)
    (r_total_rows r) n (r_header_row r) (r_headers r)
    (r_first_20_rows r) (r_sample_data r).
Definition set_header_row (h : option nat) (r : result) : result :=
  mkresult (r_name r) (r_filepath r) (r_exists r) (r_error r) (r_sheet_name r)
    (r_total_rows r) (r_total_columns r) h (r_headers r)
    (r_first_20_rows r) (r_sample_data r).
Definition set_headers (hs : list header) (r : result) : result :=
  mkresult (r_name r) (r_filepath r) (r_exists r) (r_error r) (r_sheet_name r)
    (r_total_rows r) (r_total_columns r) (r_header_row r) hs
    (r_first_20_rows r) (r_sample_data r).
Definition set_first_20_rows (l : list dumped_row) (r : result) : result :=
  mkresult (r_name r) (r_filepath r) (r_exists r) (r_error r) (r_sheet_name r)
    (r_total_rows r) (r_total_columns r) (r_header_row r) (r_headers r)
    l (r_sample_data r).
Definition set_sample_data (l : list sample) (r : result) : result :=
  mkresult (r_name r) (r_filepath r) (r_exists r) (r_error r) (r_sheet_name r)
    (r_total_rows r) (r_total_columns r) (r_header_row r) (r_headers r)
    (r_first_20_rows r) l.

(** *** The first twenty rows, stringified *)

(** [None], [value.strftime('%Y-%m-%d')] or [str(value)]. *)
Definition dump_value (v : value) : value :=
  if is_none v then VNone
  else if has_strftime v then VStr (value_strftime v "%Y-%m-%d")
  else VStr (str v).

Definition first_20_rows (ws : worksheet) : list dumped_row :=
  map (fun i => mkdumped i (map dump_value (row_values ws i)))
      (range 1 (Nat.min 21 (max_row ws + 1))).

(** *** Header detection *)

(** [sum(1 for v in row
         if v is not None and (v.strip() if isinstance(v, str) else True))] *)
Definition non_none_count (row : list value) : nat :=
  List.length
    (filter (fun v => negb (is_none v)
                      && (if isinstance_str v then nonempty (strip (str v))
                          else true))
            row).

(** [result['first_20_rows'][i-1]['values'] if i <= len(...) else []] *)
Definition dumped_values (first20 : list dumped_row) (i : nat) : list value :=
  if (i <=? List.length first20)%nat
  then values (nth (i - 1) first20 (mkdumped 0 []))
  else [].

(** One turn of the loop; the state is [(header_row, max_headers)]. *)
Definition scan_step (first20 : list dumped_row) (st : option nat * nat)
  (i : nat) : option nat * nat :=
  let '(header_row, max_headers) := st in
  let non_none_count := non_none_count (dumped_values first20 i) in
  if (max_headers <? non_none_count)%nat && (3 <=? non_none_count)%nat
  then (Some i, non_none_count)
  else st.

(** The loop over [range(1, min(15, ws.max_row + 1))]. *)
Definition detect_header (ws : worksheet) : option nat :=
  fst (fold_left (scan_step (first_20_rows ws))
                 (range 1 (Nat.min 15 (max_row ws + 1)))
                 (None, 0)).

(** [if header_row is None: header_row = 1] *)
Definition header_row_of (ws : worksheet) : nat :=
  match detect_header ws with
  | None => 1
  | Some i => i
  end.

(** *** Header fields *)

Definition get_headers (ws : worksheet) (header_row : nat) : list header :=
  flat_map
    (fun '(idx, v) =>
       let col_letter := get_column_letter (idx + 1) in
       let header_value := if is_none v then VStr "" else v in
       if truthy header_value
       then [mkheader col_letter (str header_value) idx]
       else [])
    (enumerate (row_values ws header_row)).

(** *** Typed sample rows *)

(** The type tag and the display value of a cell. *)
Definition classify (v : value) : string * value :=
  if is_none v then ("empty", VNone)
  else if isinstance_str v then ("string", v)
  else if isinstance_int v then ("integer", v)
  else if isinstance_float v then ("number", v)
  else if has_strftime v
       then ("date/datetime", VStr (value_strftime v "%Y-%m-%d %H:%M:%S"))
  else (type_name v, VStr (str v)).

(** The search of [result['headers']] for the entry at column [idx]. *)
Definition header_name_at (headers : list header) (idx : nat) : option string :=
  option_map name (find (fun h => (index h =? idx)%nat) headers).

(** One turn of the loop over the cells of a data row. *)
Definition cell_step (headers : list header) (row_dict : dict entry)
  (ic : nat * value) : dict entry :=
  let '(idx, v) := ic in
  let col_letter := get_column_letter (idx + 1) in
  let '(dtype, display_value) := classify v in
  match header_name_at headers idx with
  | Some header_name =>
      if nonempty header_name
      then dict_set row_dict col_letter (mkentry header_name display_value dtype)
      else row_dict
  | None => row_dict
  end.

Definition sample_row (ws : worksheet) (headers : list header) (i : nat)
  : sample :=
  mksample i (fold_left (cell_step headers) (enumerate (row_values ws i)) []).

(** The rows [header_row + 1 .. header_row + 3], clipped to the sheet. *)
Definition sample_data (ws : worksheet) (headers : list header)
  (header_row : nat) : list sample :=
  map (sample_row ws headers)
      (range (header_row + 1) (Nat.min (header_row + 4) (max_row ws + 1))).

(** *** The per-workbook analysis *)

(** The body of the [try] block. *)
Definition try_block (fs : filesystem) (filepath : string) : M result unit :=
  modify (set_exists true) ;;
  wb <- load_workbook fs filepath ;;
  let ws := active (snd wb) in
  modify (set_sheet_name (Some (sheet_title ws))) ;;
  ws <- worksheet_attr ws "max_row" ;;
  modify (set_total_rows (max_row ws)) ;;
  modify (set_total_columns (max_column ws)) ;;
  modify (set_first_20_rows (first_20_rows ws)) ;;
  let header_row := header_row_of ws in
  modify (set_header_row (Some header_row)) ;;
  let headers := get_headers ws header_row in
  modify (set_headers headers) ;;
  modify (set_sample_data (sample_data ws headers header_row)) ;;
  close wb.

(** [f"{type(e).__name__}: {str(e)}"] *)
Definition describe (e : exn) : string := exn_type e ++ ": " ++ exn_msg e.

(** [analyze_excel(filepath, name)], over the archives open before the call. *)
Definition analyze_excel (fs : filesystem) (filepath name : string)
  (h : handles) : result * handles :=
  let result := initial filepath name in
  if negb (path_exists fs filepath)
  then (set_error (Some "File not found") result, h)
  else
    match try_block fs filepath (h, result) with
    | (Ok _, (h', result')) => (result', h')
    | (Raised e, (h', result')) => (set_error (Some (describe e)) result', h')
    end.

(** The driver: [all_results.append(analyze_excel(filepath, name))] for
    each item in turn. *)
Fixpoint run (fs : filesystem) (files : list (string * string)) (h : handles)
  : list result * handles :=
  match files with
  | [] => ([], h)
  | (filepath, name) :: rest =>
      let '(r, h') := analyze_excel fs filepath name h in
      let '(rs, h'') := run fs rest h' in
      (r :: rs, h'')
  end.

End V2.

(* ================================================================== *)
(** ** analyze_excel_summary.py: first qualifying row that looks like a header *)
(* ================================================================== *)

Module Summary.
Import Py Xl Eff.
Local Open Scope eff_scope.

(** [get_type_name(value)] *)
Definition get_type_name (v : value) : string :=
  if is_none v then "empty"
  else if isinstance_str v then "string"
  else if isinstance_int v then "integer"
  else if isinstance_float v then "number"
  else if has_strftime v then "date/datetime"
  else type_name v.

(** [sum(1 for cell in row if cell.value and str(cell.value).strip())] *)
Definition non_empty (row : list value) : nat :=
  List.length (filter (fun v => truthy v && nonempty (strip (str v))) row).

(** One turn of the inner loop: a non-empty cell whose trimmed text is
    longer than 100 characters or holds more than 2 line feeds clears
    [looks_like_header]. *)
Definition cell_check (looks_like_header : bool) (v : value) : bool :=
  if truthy v then
    let val := strip (str v) in
    if (100 <? String.length val)%nat || (2 <? count newline val)%nat
    then false
    else looks_like_header
  else looks_like_header.

Definition looks_like_header (row : list value) : bool :=
  fold_left cell_check row true.

(** One turn of the detection loop. *)
Definition scan_step (ws : worksheet) (header_row : option nat) (i : nat)
  : option nat :=
  let row := row_values ws i in
  let non_empty := non_empty row in
  if (3 <=? non_empty)%nat then
    if looks_like_header row && (3 <=? non_empty)%nat then
      match header_row with
      | None => Some i
      | Some _ => header_row
      end
    else header_row
  else header_row.

(** The loop over [range(1, min(15, ws.max_row + 1))]. *)
Definition detect_header (ws : worksheet) : option nat :=
  fold_left (scan_step ws) (range 1 (Nat.min 15 (max_row ws + 1))) None.

(** [if not header_row: header_row = 1] *)
Definition header_row_of (ws : worksheet) : nat :=
  match detect_header ws with
  | None => 1
  | Some i => if (i =? 0)%nat then 1 else i
  end.

Record header := mkheader { index : nat; column : string; name : string }.

Definition get_headers (ws : worksheet) (header_row : nat) : list header :=
  flat_map
    (fun '(idx, v) =>
       if truthy v
       then [mkheader idx (get_column_letter (idx + 1)) (str v)]
       else [])
    (enumerate (row_values ws header_row)).

(** A printed cell of a data row: the header, the type tag and
    [str(value)[:100] if value else 'None']. *)
Record printed := mkprinted { p_header : header; p_type : string; p_value : string }.

Definition data_row (ws : worksheet) (headers : list header) (i : nat)
  : list printed :=
  let data_row := row_values ws i in
  map (fun h =>
         let v := nth (index h) data_row VNone in
         mkprinted h (get_type_name v)
                   (if truthy v then prefix 100 (str v) else "None"))
      headers.

Record report := mkreport {
  header_row : nat;
  headers : list header;
  first_data_row : list printed;
  second_data_row : option (list printed)
}.

Definition analyze_sheet (ws : worksheet) : report :=
  let hr := header_row_of ws in
  let hs := get_headers ws hr in
  mkreport hr hs (data_row ws hs (hr + 1))
    (if (hr + 1 <? max_row ws)%nat
     then Some (data_row ws (firstn 5 hs) (hr + 2))
     else None).

(** *** The preview of the first twelve rows *)

(** [[str(cell.value)[:50] if cell.value else '' for cell in row[:10]]] *)
Definition preview_values (row : list value) : list string :=
  map (fun v => if truthy v then prefix 50 (str v) else "") (firstn 10 row).

(** One preview line per row: the row number, [values[:3]], and whether
    the ellipsis is shown ([len(values) > 3]). *)
Definition preview (ws : worksheet) : list (nat * list string * bool) :=
  map (fun i =>
         let values := preview_values (row_values ws i) in
         (i, firstn 3 values, (3 <? List.length values)%nat))
      (range 1 (Nat.min 13 (max_row ws + 1))).

(** [analyze_excel_headers(filepath, name)].  Console output is not
    modelled. *)
Definition analyze_excel_headers (fs : filesystem) (filepath name : string)
  : M unit report :=
  wb <- load_workbook fs filepath ;;
  ws <- worksheet_attr (active (snd wb)) "max_row" ;;
  let rep := analyze_sheet ws in
  close wb ;;
  ret rep.

(** The driver: each call under its own [try ... except Exception]. *)
Fixpoint run (fs : filesystem) (files : list (string * string)) (h : handles)
  : list (outcome report) * handles :=
  match files with
  | [] => ([], h)
  | (filepath, name) :: rest =>
      let '(o, (h', _)) := analyze_excel_headers fs filepath name (h, tt) in
      let '(os, h'') := run fs rest h' in
      (o :: os, h'')
  end.

End Summary.

(* ================================================================== *)
(** ** Vocabulary of the statements *)
(* ================================================================== *)

Section Vocabulary.
Import Py Xl Eff.

(** A string whose first character is not white space. *)
Definition solid_head (s : string) : bool :=
  match s with
  | EmptyString => false
  | String c _ => negb (is_space c)
  end.

(** A [float] or foreign scalar prints visibly when [str] of it is not
    blank; every other non-absent, non-text value always does. *)
Definition printable (v : value) : bool :=
  match v with
  | VFloat _ | VObject _ => nonempty (strip (str v))
  | _ => true
  end.

(** The specification's meaningful cell: not absent and, when textual, not
    blank after trimming. *)
Definition meaningful_cell (v : value) : bool :=
  match v with
  | VNone => false
  | VStr s => nonempty (strip s)
  | _ => true
  end.

Definition meaningful (row : list value) : nat :=
  List.length (filter meaningful_cell row).

(** A textual cell that is not blank after trimming. *)
Definition text_cell (v : value) : bool :=
  match v with
  | VStr s => nonempty (strip s)
  | _ => false
  end.

Definition text_count (row : list value) : nat :=
  List.length (filter text_cell row).

(** The count the v2 detector computes for row [i]. *)
Definition V2_count (ws : worksheet) (i : nat) : nat :=
  V2.non_none_count (V2.dumped_values (V2.first_20_rows ws) i).

(** A non-empty cell whose trimmed text is too long or too broken for a
    header. *)
Definition long_cell (v : value) : bool :=
  truthy v
  && ((100 <? String.length (strip (str v)))%nat
      || (2 <? count newline (strip (str v)))%nat).

(** A row the summary detector takes as a header candidate. *)
Definition Summary_candidate (ws : worksheet) (i : nat) : bool :=
  (3 <=? Summary.non_empty (row_values ws i))%nat
  && Summary.looks_like_header (row_values ws i).

(** What one cell adds to a record. *)
Definition cell_entries (headers : list V2.header) (ic : nat * value)
  : dict V2.entry :=
  match V2.header_name_at headers (fst ic) with
  | Some header_name =>
      if nonempty header_name
      then [(get_column_letter (fst ic + 1),
             V2.mkentry header_name (snd (V2.classify (snd ic)))
                        (fst (V2.classify (snd ic))))]
      else []
  | None => []
  end.

(** The record the v2 script builds for one item, read off the file the
    path resolves to. *)
Definition V2_record (fs : filesystem) (filepath name : string) : V2.result :=
  match fs filepath with
  | Missing =>
      V2.mkresult name filepath false (Some "File not found") None 0 0 None
                  [] [] []
  | Unreadable e =>
      V2.mkresult name filepath true (Some (V2.describe e)) None 0 0 None
                  [] [] []
  | Xlsx (mkwb (Chartsheet t)) =>
      V2.mkresult name filepath true
                  (Some (V2.describe (AttributeError "max_row"))) (Some t)
                  0 0 None [] [] []
  | Xlsx (mkwb (Worksheet ws)) =>
      let hr := V2.header_row_of ws in
      let hs := V2.get_headers ws hr in
      V2.mkresult name filepath true None (Some (title ws))
                  (max_row ws) (max_column ws) (Some hr) hs
                  (V2.first_20_rows ws) (V2.sample_data ws hs hr)
  end.

(** The text YYYY-MM-DD HH:MM:SS of a calendar value. *)
Definition date_time_text (x : temporal) : string :=
  iso_date (date_of x) ++ " " ++ zpad 2 (hour (time_of x))
  ++ ":" ++ zpad 2 (minute (time_of x))
  ++ ":" ++ zpad 2 (second (time_of x)).

(** A year of at most four digits and two-digit month, day, hour, minute
    and second, as every calendar value has. *)
Definition calendar_fields_fit (x : temporal) : bool :=
  ((year (date_of x) <? 100 * 100) && (month (date_of x) <=? 99)
   && (day (date_of x) <=? 99) && (hour (time_of x) <=? 99)
   && (minute (time_of x) <=? 99) && (second (time_of x) <=? 99))%nat.

(** What [dump_value] makes of a cell: absent stays absent, a calendar
    value becomes its date, anything else its [str]. *)
Definition dumped (v : value) : value :=
  match v with
  | VNone => VNone
  | VTemporal x => VStr (iso_date (date_of x))
  | _ => VStr (str v)
  end.

(** The header field column [i] of a header row gives, if any. *)
Definition field_at (row : list value) (i : nat) : list V2.header :=
  let v := nth i row VNone in
  if truthy v then [V2.mkheader (get_column_letter (i + 1)) (str v) i] else [].

(** The header fields of the v2 script that reach the typed records. *)
Definition named_fields (hs : list V2.header) : list V2.header :=
  filter (fun h => nonempty (V2.name h)) hs.

(** The entry a record holds for a header field, given the data row. *)
Definition entry_for (h : V2.header) (row : list value) : V2.entry :=
  let c := nth (V2.index h) row VNone in
  V2.mkentry (V2.name h) (snd (V2.classify c)) (fst (V2.classify c)).

(** *** Sample inputs *)

(** The invoice sheet: a blank row, a header row, one data row. *)
Definition invoice_sheet : worksheet :=
  mkws "Invoices"
    [[VStr ""; VStr ""; VStr ""];
     [VStr "Invoice #"; VStr "Date"; VStr "Amount"];
     [VStr "INV-001"; VStr "2024-01-15"; VFloat (mkfloat "120.5" true)]].

(** A single row of three whole numbers. *)
Definition numbers_sheet : worksheet :=
  mkws "Numbers" [[VInt 1; VInt 2; VInt 3]].

(** [k - 1] empty rows of three cells, then a row of three labels. *)
Definition late_header_sheet (k : nat) : worksheet :=
  mkws "Late"
    (repeat [VNone; VNone; VNone] (k - 1) ++ [[VStr "a"; VStr "b"; VStr "c"]]).

(** A header row whose first cell is two blanks, and one data row. *)
Definition padded_header_sheet : worksheet :=
  mkws "Padded"
    [[VStr "  "; VStr "a"; VStr "b"; VStr "c"];
     [VInt 1; VInt 2; VNone; VNone]].

(** A header row with a gap, and a data row holding a boolean. *)
Definition gap_sheet : worksheet :=
  mkws "Gap"
    [[VStr "id"; VNone; VStr "paid"; VStr "note"];
     [VInt 7; VStr "x"; VBool true; VNone]].

(** A row whose second cell runs to 101 characters, above a plain row. *)
Definition wrapped_sheet : worksheet :=
  mkws "Wrapped"
    [[VStr "a"; VStr (string_of_list_ascii (repeat "x"%char 101)); VStr "c"];
     [VStr "id"; VStr "name"; VStr "qty"]].

(** Two rows with the same number of labels. *)
Definition tie_sheet : worksheet :=
  mkws "Tie"
    [[VStr "a"; VStr "b"; VStr "c"]; [VStr "d"; VStr "e"; VInt 6]].

(** Midnight on 15 January 2024. *)
Definition midnight : value :=
  VTemporal (TDatetime (mkdate 2024 1 15) (mktime 0 0 0 0)).

(** A disk with a good workbook, a workbook whose active sheet is a chart,
    and a file that is not a workbook; every other path is missing. *)
Definition disk : filesystem :=
  fun p =>
    if String.eqb p "a.xlsx" then Xlsx (mkwb (Worksheet invoice_sheet))
    else if String.eqb p "c.xlsx" then Xlsx (mkwb (Chartsheet "Chart1"))
    else if String.eqb p "u.xlsx"
         then Unreadable (mkexn "BadZipFile" "File is not a zip file")
    else Missing.

End Vocabulary.

(* ================================================================== *)
(** ** Facts about the runtime fragment *)
(* ================================================================== *)

Section PyFacts.
Import Py.

Lemma rstrip_keeps_solid_head c s :
  is_space c = false -> rstrip (String c s) <> EmptyString.
Proof.
  intros Hc. simpl. destruct (rstrip s); [rewrite Hc|]; discriminate.
Qed.

Lemma strip_solid_head s : solid_head s = true -> nonempty (strip s) = true.
Proof.
  destruct s as [|c s]; simpl; [discriminate|].
  intros Hc. apply negb_true_iff in Hc.
  unfold strip. simpl lstrip. rewrite Hc.
  pose proof (rstrip_keeps_solid_head c s Hc) as Hne.
  destruct (rstrip (String c s)); [congruence|reflexivity].
Qed.

Lemma solid_head_app s t : solid_head s = true -> solid_head (s ++ t) = true.
Proof. destruct s; simpl; [discriminate|auto]. Qed.

Lemma string_of_uint_solid d : solid_head (NilZero.string_of_uint d) = true.
Proof. destruct d; reflexivity. Qed.

Lemma str_nat_solid n : solid_head (str_nat n) = true.
Proof. apply string_of_uint_solid. Qed.

Lemma str_int_solid z : solid_head (str_int z) = true.
Proof.
  unfold str_int. destruct (Z.to_int z); simpl; [apply string_of_uint_solid|reflexivity].
Qed.

Lemma zpad_solid w n : solid_head (zpad w n) = true.
Proof.
  unfold zpad.
  destruct (w - String.length (str_nat n)); simpl; [apply str_nat_solid|reflexivity].
Qed.

Lemma append_empty_r (s : string) : s ++ "" = s.
Proof. induction s; simpl; congruence. Qed.

Lemma append_assoc3 (s t u : string) : (s ++ t) ++ u = s ++ t ++ u.
Proof. induction s; simpl; congruence. Qed.

(** The two formats the scripts pass to [strftime], spelled out. *)
Lemma strftime_date x : strftime x "%Y-%m-%d" = iso_date (date_of x).
Proof.
  unfold iso_date. cbn - [zpad append]. now rewrite append_empty_r.
Qed.

Lemma strftime_date_time x :
  strftime x "%Y-%m-%d %H:%M:%S" = date_time_text x.
Proof.
  unfold date_time_text, iso_date. cbn - [zpad append].
  rewrite append_empty_r, !append_assoc3. reflexivity.
Qed.

Lemma length_append (s t : string) :
  String.length (s ++ t) = String.length s + String.length t.
Proof. induction s; simpl; congruence. Qed.

(** The width of a padded field, checked on every number below a bound. *)
Lemma zpad_width w bound n :
  forallb (fun k => (String.length (zpad w k) =? w)%nat) (seq 0 bound) = true ->
  n < bound -> String.length (zpad w n) = w.
Proof.
  intros H Hn. rewrite forallb_forall in H. apply Nat.eqb_eq, H, in_seq. lia.
Qed.

Lemma zpad2_length n : n <= 99 -> String.length (zpad 2 n) = 2.
Proof.
  intros H. apply (zpad_width 2 100); [vm_compute; reflexivity | lia].
Qed.

Lemma zpad4_length n : n < 100 * 100 -> String.length (zpad 4 n) = 4.
Proof.
  intros H. apply (zpad_width 4 (100 * 100)); [vm_compute; reflexivity | lia].
Qed.

Lemma date_time_text_length x :
  calendar_fields_fit x = true -> String.length (date_time_text x) = 19.
Proof.
  unfold calendar_fields_fit. rewrite !andb_true_iff, !Nat.leb_le, Nat.ltb_lt.
  intros (((((Hy & Hm) & Hd) & HH) & HM) & HS).
  unfold date_time_text, iso_date. rewrite !length_append.
  rewrite zpad4_length, !zpad2_length by assumption. reflexivity.
Qed.

Lemma iso_date_solid d : solid_head (iso_date d) = true.
Proof. apply solid_head_app, zpad_solid. Qed.

Lemma iso_time_solid t : solid_head (iso_time t) = true.
Proof. apply solid_head_app, zpad_solid. Qed.

Lemma str_temporal_solid x : solid_head (str_temporal x) = true.
Proof.
  destruct x; simpl;
    [apply solid_head_app, iso_date_solid | apply iso_date_solid | apply iso_time_solid].
Qed.

Lemma str_nonblank v :
  is_none v = false -> isinstance_str v = false -> printable v = true ->
  nonempty (strip (str v)) = true.
Proof.
  destruct v as [|s|[|]|z|f|x|o]; simpl; try discriminate; intros _ _ Hp;
    try assumption; try reflexivity.
  - apply strip_solid_head, str_int_solid.
  - apply strip_solid_head, str_temporal_solid.
Qed.

End PyFacts.

(* ================================================================== *)
(** ** Facts about the openpyxl fragment *)
(* ================================================================== *)

Section XlFacts.
Import Py Xl.

Lemma column_index_from_snoc acc s c :
  column_index_from acc (s ++ String c EmptyString)
  = column_index_from acc s * 26 + (nat_of_ascii c - 64).
Proof. revert acc. induction s as [|d s IH]; intros acc; simpl; auto. Qed.

(** Reading a label back gives the index it was made from. *)
Lemma letters_roundtrip fuel n :
  n <= fuel -> column_index_from_string (letters fuel n) = n.
Proof.
  revert n. induction fuel as [|fuel IH]; intros n Hn.
  - now replace n with 0 by lia.
  - cbn [letters]. destruct (Nat.eqb_spec n 0) as [->|Hn0]; [reflexivity|].
    pose proof (Nat.div_mod_eq n 26) as Hdm.
    pose proof (Nat.mod_upper_bound n 26 ltac:(lia)) as Hr.
    unfold column_index_from_string in *.
    destruct (Nat.eqb_spec (n mod 26) 0) as [Hz|Hz];
      rewrite column_index_from_snoc, IH by lia;
      rewrite nat_ascii_embedding by lia; nia.
Qed.

Lemma get_column_letter_inj a b :
  get_column_letter a = get_column_letter b -> a = b.
Proof.
  intros H. apply (f_equal column_index_from_string) in H.
  unfold get_column_letter in H. now rewrite !letters_roundtrip in H by lia.
Qed.

(** Below the last row every cell reads [None]. *)
Lemma row_values_beyond ws i :
  List.length (grid ws) < i -> row_values ws i = repeat VNone (max_column ws).
Proof.
  intros Hi. unfold row_values.
  rewrite nth_overflow by lia. simpl. now rewrite Nat.sub_0_r.
Qed.

Lemma range_spec a b i : In i (range a b) <-> a <= i < b.
Proof. unfold range. rewrite in_seq. lia. Qed.

Lemma range_snoc a b : a <= b -> range a (S b) = (range a b ++ [b])%list.
Proof.
  intros H. unfold range. replace (S b - a) with (S (b - a)) by lia.
  rewrite seq_S. do 2 f_equal. lia.
Qed.

Lemma nth_map_range {A} (f : nat -> A) a b i d :
  a <= i < b -> nth (i - a) (map f (range a b)) d = f i.
Proof.
  intros H. unfold range.
  rewrite nth_indep with (d' := f 0) by (rewrite length_map, length_seq; lia).
  rewrite map_nth, seq_nth by lia. f_equal. lia.
Qed.

End XlFacts.

(* ================================================================== *)
(** ** The detection loops *)
(* ================================================================== *)

Section Counting.
Import Py Xl.

Lemma filter_length_ext {A} (p q : A -> bool) (f : A -> A) l :
  (forall x, In x l -> p (f x) = q x) ->
  List.length (filter p (map f l)) = List.length (filter q l).
Proof.
  induction l as [|x l IH]; intros H; simpl; [reflexivity|].
  rewrite (H x) by now left.
  destruct (q x); simpl; rewrite IH; auto; intros y Hy; apply H; now right.
Qed.

Lemma filter_length_le {A} (p : A -> bool) l :
  List.length (filter p l) <= List.length l.
Proof. induction l; simpl; [lia|]. destruct (p a); simpl; lia. Qed.

Lemma filter_repeat_false {A} (p : A -> bool) x k :
  p x = false -> filter p (repeat x k) = [].
Proof. intros H. induction k; simpl; [|rewrite H]; auto. Qed.

(** A positive count has a counted element. *)
Lemma filter_length_pos {A} (p : A -> bool) l :
  0 < List.length (filter p l) -> exists x, In x l /\ p x = true.
Proof.
  destruct (filter p l) as [|x r] eqn:E; simpl; [lia|]. intros _.
  assert (Hx : In x (filter p l)) by (rewrite E; now left).
  apply filter_In in Hx. eauto.
Qed.

(** What the v2 detector counts in a dumped row is what the specification
    calls meaningful in the row itself, as long as every cell prints
    visibly. *)
Lemma dump_value_counted v :
  printable v = true ->
  (negb (is_none (V2.dump_value v))
   && (if isinstance_str (V2.dump_value v)
       then nonempty (strip (str (V2.dump_value v))) else true))
  = meaningful_cell v.
Proof.
  intros Hp. unfold V2.dump_value.
  destruct v as [|s|b|z|f|x|o]; cbn - [strftime strip]; try reflexivity.
  - now destruct b.
  - now rewrite strip_solid_head by apply str_int_solid.
  - exact Hp.
  - rewrite strftime_date. now rewrite strip_solid_head by apply iso_date_solid.
  - exact Hp.
Qed.

Lemma V2_count_dumped_row row :
  Forall (fun v => printable v = true) row ->
  V2.non_none_count (map V2.dump_value row) = meaningful row.
Proof.
  intros H. unfold V2.non_none_count, meaningful.
  apply filter_length_ext. intros v Hv. apply dump_value_counted.
  rewrite Forall_forall in H. auto.
Qed.

(** Within the dumped rows the detector counts the dump of the row. *)
Lemma V2_count_row ws i :
  1 <= i -> i < Nat.min 21 (max_row ws + 1) ->
  V2_count ws i = V2.non_none_count (map V2.dump_value (row_values ws i)).
Proof.
  intros H1 H2. unfold V2_count, V2.dumped_values, V2.first_20_rows.
  rewrite length_map. unfold range at 1. rewrite length_seq.
  destruct (Nat.leb_spec i (Nat.min 21 (max_row ws + 1) - 1)); [|lia].
  now rewrite (nth_map_range
    (fun i => V2.mkdumped i (map V2.dump_value (row_values ws i))) 1) by lia.
Qed.

(** The simple detector counts the non-blank text cells. *)
Lemma Simple_count_text row : Simple.non_none_count row = text_count row.
Proof.
  unfold Simple.non_none_count, text_count. f_equal.
  apply filter_ext. intros v. now destruct v.
Qed.

Lemma text_cell_truthy v : text_cell v = true -> truthy v = true.
Proof. destruct v as [|s| | | | |]; simpl; try discriminate. now destruct s. Qed.

Lemma text_count_any row : 0 < text_count row -> any row = true.
Proof.
  intros H. apply filter_length_pos in H as (v & Hin & Hv).
  apply existsb_exists. exists v. auto using text_cell_truthy.
Qed.

Lemma text_count_padded row k :
  text_count (row ++ repeat VNone k) = text_count row.
Proof.
  unfold text_count. rewrite filter_app, filter_repeat_false by reflexivity.
  now rewrite app_nil_r.
Qed.

(** A row of the simple detector that reaches the threshold lies on the
    sheet. *)
Lemma text_count_on_sheet ws i :
  1 <= i -> 0 < text_count (row_values ws i) -> i <= max_row ws.
Proof.
  intros H1 H. unfold max_row.
  destruct (Nat.le_gt_cases i (List.length (grid ws))) as [|Hgt]; [lia|].
  rewrite row_values_beyond in H by assumption.
  unfold text_count in H. rewrite filter_repeat_false in H by reflexivity.
  simpl in H. lia.
Qed.

End Counting.

Section Scans.
Import Py Xl.

(** The best-so-far loop of the v2 script, over any run of row numbers. *)
Lemma V2_scan_inv f a n :
  let c := fun i => V2.non_none_count (V2.dumped_values f i) in
  match fold_left (V2.scan_step f) (seq a n) (None, 0) with
  | (None, mx) => mx = 0 /\ forall j, a <= j < a + n -> c j < 3
  | (Some i, mx) =>
      a <= i < a + n /\ mx = c i /\ 3 <= c i
      /\ (forall j, a <= j < a + n -> c j <= c i)
      /\ (forall j, a <= j < i -> c j < c i)
  end.
Proof.
  intros c. induction n as [|n IH].
  - simpl. split; [reflexivity|]. intros j Hj. lia.
  - rewrite seq_S, fold_left_app. simpl.
    destruct (fold_left (V2.scan_step f) (seq a n) (None, 0)) as [[i|] mx];
      unfold V2.scan_step; fold (c (a + n)).
    + destruct IH as (Hi & Hmx & H3 & Hall & Hbefore).
      assert (Hold : forall j, a <= j < a + n -> c j <= mx)
        by (intros j Hj; rewrite Hmx; auto).
      destruct (Nat.ltb_spec mx (c (a + n))) as [Hlt|Hge];
        [destruct (Nat.leb_spec 3 (c (a + n))) as [Hq|Hnq]|]; simpl.
      * split; [lia|]. split; [reflexivity|]. split; [assumption|].
        split; intros j Hj.
        -- destruct (Nat.eq_dec j (a + n)) as [->|]; [lia|].
           specialize (Hold j ltac:(lia)). lia.
        -- specialize (Hold j Hj). lia.
      * split; [lia|]. split; [assumption|]. split; [assumption|].
        split; [|assumption]. intros j Hj.
        destruct (Nat.eq_dec j (a + n)) as [->|]; [lia|]. apply Hall. lia.
      * split; [lia|]. split; [assumption|]. split; [assumption|].
        split; [|assumption]. intros j Hj.
        destruct (Nat.eq_dec j (a + n)) as [->|]; [lia|]. apply Hall. lia.
    + destruct IH as (Hmx & Hall). subst mx.
      destruct (Nat.ltb_spec 0 (c (a + n))) as [Hlt|Hge];
        [destruct (Nat.leb_spec 3 (c (a + n))) as [Hq|Hnq]|]; simpl.
      * split; [lia|]. split; [reflexivity|]. split; [assumption|].
        split; intros j Hj.
        -- destruct (Nat.eq_dec j (a + n)) as [->|]; [lia|].
           specialize (Hall j ltac:(lia)). lia.
        -- specialize (Hall j Hj). lia.
      * split; [reflexivity|]. intros j Hj.
        destruct (Nat.eq_dec j (a + n)) as [->|]; [lia|]. apply Hall. lia.
      * split; [reflexivity|]. intros j Hj.
        destruct (Nat.eq_dec j (a + n)) as [->|]; [lia|]. apply Hall. lia.
Qed.

(** The rows the stricter detectors examine: 1 .. min(14, max_row). *)
Lemma strict_range ws i :
  In i (range 1 (Nat.min 15 (max_row ws + 1)))
  <-> 1 <= i <= Nat.min 14 (max_row ws).
Proof. rewrite range_spec. lia. Qed.

(** The v2 detector returns the first row of greatest count among the
    examined rows that reach the threshold. *)
Lemma V2_detect_spec ws :
  match V2.detect_header ws with
  | None => forall j, 1 <= j <= Nat.min 14 (max_row ws) -> V2_count ws j < 3
  | Some i =>
      1 <= i <= Nat.min 14 (max_row ws) /\ 3 <= V2_count ws i
      /\ (forall j, 1 <= j <= Nat.min 14 (max_row ws) ->
                    V2_count ws j <= V2_count ws i)
      /\ (forall j, 1 <= j < i -> V2_count ws j < V2_count ws i)
  end.
Proof.
  unfold V2.detect_header, range.
  pose proof (V2_scan_inv (V2.first_20_rows ws) 1
                (Nat.min 15 (max_row ws + 1) - 1)) as H.
  cbv zeta in H. fold (V2_count ws) in H.
  destruct (fold_left _ _ _) as [[i|] mx]; cbn [fst].
  - destruct H as (Hi & _ & H3 & Hall & Hbefore).
    split; [lia|]. split; [assumption|]. split; [|assumption].
    intros j Hj. apply Hall. lia.
  - destruct H as (_ & Hall). intros j Hj. apply Hall. lia.
Qed.

End Scans.

(** A loop that keeps the first row satisfying a test. *)
Section FirstScan.
Variable step : option nat -> nat -> option nat.
Variable q : nat -> bool.
Hypothesis step_eq : forall hr i,
  step hr i = match hr with
              | Some _ => hr
              | None => if q i then Some i else None
              end.

Lemma first_scan_inv a n :
  match fold_left step (seq a n) None with
  | None => forall j, a <= j < a + n -> q j = false
  | Some i => a <= i < a + n /\ q i = true
              /\ forall j, a <= j < i -> q j = false
  end.
Proof.
  induction n as [|n IH].
  - simpl. intros j Hj. lia.
  - rewrite seq_S, fold_left_app. simpl. rewrite step_eq.
    destruct (fold_left step (seq a n) None) as [i|].
    + destruct IH as (Hi & Hq & Hb). split; [lia|]. split; assumption.
    + destruct (q (a + n)) eqn:Hq.
      * split; [lia|]. split; [assumption|]. intros j Hj. apply IH. lia.
      * intros j Hj. destruct (Nat.eq_dec j (a + n)) as [->|]; auto.
        apply IH. lia.
Qed.

End FirstScan.

Section FirstQualifying.
Import Py Xl.

Lemma enumerate_from_map_seq {A} (g : nat -> A) a n :
  enumerate_from a (map g (seq a n)) = map (fun i => (i, g i)) (seq a n).
Proof.
  unfold enumerate_from. rewrite length_map, length_seq.
  revert a. induction n as [|n IH]; intros a; simpl; [reflexivity|].
  now rewrite IH.
Qed.

Lemma fold_left_map_arg {A B C} (f : A -> B -> A) (h : C -> B) l init :
  fold_left f (map h l) init = fold_left (fun acc x => f acc (h x)) l init.
Proof. revert init. induction l; intros init; simpl; auto. Qed.

Lemma Simple_detect_unfold ws :
  Simple.detect_header ws
  = fold_left (fun hr i => Simple.scan_step hr (i, row_values ws i))
              (seq 1 20) None.
Proof.
  unfold Simple.detect_header, iter_rows.
  change (range 1 (20 + 1)) with (seq 1 20).
  now rewrite enumerate_from_map_seq, fold_left_map_arg.
Qed.

Lemma Simple_scan_step_first ws hr i :
  Simple.scan_step hr (i, row_values ws i)
  = match hr with
    | Some _ => hr
    | None => if (3 <=? text_count (row_values ws i))%nat then Some i else None
    end.
Proof.
  destruct hr as [k|]; cbn [Simple.scan_step]; [reflexivity|].
  rewrite Simple_count_text.
  destruct (Nat.leb_spec 3 (text_count (row_values ws i))) as [H3|H3].
  - now rewrite text_count_any by lia.
  - now destruct (any (row_values ws i)).
Qed.

(** The simple detector returns the first of rows 1..20 with three
    non-blank text cells. *)
Lemma Simple_detect_spec ws :
  match Simple.detect_header ws with
  | None => forall j, 1 <= j <= 20 -> text_count (row_values ws j) < 3
  | Some i =>
      1 <= i <= Nat.min 20 (max_row ws)
      /\ 3 <= text_count (row_values ws i)
      /\ forall j, 1 <= j < i -> text_count (row_values ws j) < 3
  end.
Proof.
  pose proof (first_scan_inv _ _ (Simple_scan_step_first ws) 1 20) as H.
  rewrite <- Simple_detect_unfold in H.
  destruct (Simple.detect_header ws) as [i|].
  - destruct H as (Hi & Hq & Hb). apply Nat.leb_le in Hq.
    pose proof (text_count_on_sheet ws i) as Hs.
    split; [lia|]. split; [assumption|].
    intros j Hj. specialize (Hb j Hj). now apply Nat.leb_gt in Hb.
  - intros j Hj. specialize (H j ltac:(lia)). now apply Nat.leb_gt in H.
Qed.

(** [looks_like_header] holds when no non-empty cell is long. *)
Lemma cell_check_fold row b :
  fold_left Summary.cell_check row b
  = b && forallb (fun v => negb (long_cell v)) row.
Proof.
  revert b. induction row as [|v row IH]; intros b; simpl.
  - now rewrite andb_true_r.
  - rewrite IH. unfold Summary.cell_check, long_cell.
    destruct (truthy v); simpl; [|reflexivity].
    destruct (_ || _); simpl; [|reflexivity].
    now rewrite andb_false_r.
Qed.

Lemma looks_like_header_spec row :
  Summary.looks_like_header row = forallb (fun v => negb (long_cell v)) row.
Proof. apply cell_check_fold. Qed.

(** The summary detector returns the first examined candidate row. *)
Lemma Summary_detect_spec ws :
  match Summary.detect_header ws with
  | None =>
      forall j, 1 <= j <= Nat.min 14 (max_row ws) ->
                Summary_candidate ws j = false
  | Some i =>
      1 <= i <= Nat.min 14 (max_row ws)
      /\ Summary_candidate ws i = true
      /\ forall j, 1 <= j < i -> Summary_candidate ws j = false
  end.
Proof.
  assert (Hstep : forall hr i,
            Summary.scan_step ws hr i
            = match hr with
              | Some _ => hr
              | None => if Summary_candidate ws i then Some i else None
              end).
  { intros hr i. unfold Summary.scan_step, Summary_candidate.
    destruct (3 <=? _)%nat, (Summary.looks_like_header _), hr; reflexivity. }
  pose proof (first_scan_inv _ _ Hstep 1 (Nat.min 15 (max_row ws + 1) - 1)) as H.
  unfold Summary.detect_header, range.
  destruct (fold_left _ _ _) as [i|].
  - destruct H as (Hi & Hq & Hb). split; [lia|]. split; assumption.
  - intros j Hj. apply H. lia.
Qed.

End FirstQualifying.

(* ================================================================== *)
(** ** Header fields and typed records *)
(* ================================================================== *)

Section Records.
Import Py Xl.

Lemma in_enumerate_from {A} (l : list A) a i v :
  In (i, v) (enumerate_from a l) <-> a <= i /\ nth_error l (i - a) = Some v.
Proof.
  unfold enumerate_from. revert a. induction l as [|x l IH]; intros a; simpl.
  - split; [tauto|]. intros [_ H]. destruct (i - a); discriminate.
  - rewrite IH. split.
    + intros [H|[H1 H2]].
      * inversion H; subst. rewrite Nat.sub_diag. split; [lia|reflexivity].
      * split; [lia|]. replace (i - a) with (S (i - S a)) by lia. exact H2.
    + intros [H1 H2]. destruct (Nat.eq_dec i a) as [->|Hne].
      * rewrite Nat.sub_diag in H2. simpl in H2. left. congruence.
      * right. split; [lia|].
        replace (i - a) with (S (i - S a)) in H2 by lia. exact H2.
Qed.

Lemma in_enumerate {A} (l : list A) i v :
  In (i, v) (enumerate l) <-> nth_error l i = Some v.
Proof.
  unfold enumerate. rewrite in_enumerate_from, Nat.sub_0_r.
  split; [tauto|]. split; [lia|assumption].
Qed.

Lemma enumerate_indices {A} (l : list A) :
  map fst (enumerate l) = seq 0 (List.length l).
Proof.
  unfold enumerate, enumerate_from. generalize 0.
  induction l as [|x l IH]; intros a; simpl; [reflexivity|]. now rewrite IH.
Qed.

(** The header fields are the truthy cells of the header row, each with
    its own position and the letter of that position. *)
Lemma V2_get_headers_spec ws hr h :
  In h (V2.get_headers ws hr)
  <-> exists idx v,
        nth_error (row_values ws hr) idx = Some v /\ truthy v = true
        /\ h = V2.mkheader (get_column_letter (idx + 1)) (str v) idx.
Proof.
  unfold V2.get_headers. rewrite in_flat_map. split.
  - intros ([idx v] & Hin & Hh). apply in_enumerate in Hin.
    exists idx, v. destruct v; simpl in Hh; try contradiction;
      repeat match type of Hh with
             | context [if ?b then _ else _] => destruct b eqn:?
             end; simpl in Hh; try contradiction;
      destruct Hh as [<-|[]]; auto.
  - intros (idx & v & Hn & Ht & ->). exists (idx, v).
    split; [now apply in_enumerate|].
    destruct v; simpl in *; try discriminate; try rewrite Ht; now left.
Qed.

Lemma dict_set_fresh {V} (d : dict V) k v :
  ~ In k (dict_keys d) -> dict_set d k v = (d ++ [(k, v)])%list.
Proof.
  induction d as [|[k' v'] d IH]; simpl; intros H; [reflexivity|].
  destruct (String.eqb_spec k k') as [->|Hne]; [tauto|].
  rewrite IH; tauto.
Qed.

Lemma dict_get_absent {V} (d : dict V) k :
  ~ In k (dict_keys d) -> dict_get d k = None.
Proof.
  induction d as [|[k' v'] d IH]; simpl; intros H; [reflexivity|].
  destruct (String.eqb_spec k k') as [->|Hne]; [tauto|]. apply IH. tauto.
Qed.

Lemma cell_step_entries hs d ic :
  ~ In (get_column_letter (fst ic + 1)) (dict_keys d) ->
  V2.cell_step hs d ic = (d ++ cell_entries hs ic)%list.
Proof.
  destruct ic as [idx v]. intros Hf. unfold V2.cell_step, cell_entries.
  cbn [fst snd]. destruct (V2.classify v) as [dtype display_value].
  destruct (V2.header_name_at hs idx) as [n|]; [destruct (nonempty n)|];
    cbn [fst snd]; rewrite ?app_nil_r; auto using dict_set_fresh.
Qed.

Lemma cell_entries_keys hs ic k :
  In k (dict_keys (cell_entries hs ic)) -> k = get_column_letter (fst ic + 1).
Proof.
  unfold cell_entries.
  destruct (V2.header_name_at hs (fst ic)) as [n|]; [destruct (nonempty n)|];
    simpl; intuition.
Qed.

(** Column letters are distinct, so no cell overwrites the entry of
    another: a record is the run of what its cells add, in column order. *)
Lemma fold_cell_steps hs l : forall acc,
  NoDup (map fst l) ->
  (forall ic, In ic l -> ~ In (get_column_letter (fst ic + 1)) (dict_keys acc)) ->
  fold_left (V2.cell_step hs) l acc = (acc ++ flat_map (cell_entries hs) l)%list.
Proof.
  induction l as [|ic l IH]; intros acc Hnd Hfresh; simpl.
  - now rewrite app_nil_r.
  - inversion Hnd as [|? ? Hnotin Hnd']; subst.
    rewrite cell_step_entries by (apply Hfresh; now left).
    rewrite IH, <- app_assoc; auto.
    intros ic' Hin' Hk. unfold dict_keys in Hk.
    rewrite map_app, in_app_iff in Hk. destruct Hk as [Hk|Hk].
    + apply (Hfresh ic'); [now right|exact Hk].
    + apply cell_entries_keys, get_column_letter_inj in Hk.
      apply Hnotin. replace (fst ic) with (fst ic') by lia.
      now apply in_map.
Qed.

Lemma V2_sample_row_entries ws hs i :
  V2.s_data (V2.sample_row ws hs i)
  = flat_map (cell_entries hs) (enumerate (row_values ws i)).
Proof.
  unfold V2.sample_row. cbn [V2.s_data].
  rewrite fold_cell_steps; [reflexivity| |intros ic _ []].
  rewrite enumerate_indices. apply seq_NoDup.
Qed.

Lemma header_name_at_some hs idx n :
  V2.header_name_at hs idx = Some n ->
  exists h, In h hs /\ V2.index h = idx /\ V2.name h = n.
Proof.
  unfold V2.header_name_at.
  destruct (find _ hs) as [h|] eqn:E; simpl; [|discriminate].
  intros [= <-]. apply find_some in E as [Hin Hidx].
  apply Nat.eqb_eq in Hidx. eauto.
Qed.

(** Every entry of a record comes from one header field and the cell of
    the data row at that field's position. *)
Lemma V2_sample_row_entry ws hs i k e :
  In (k, e) (V2.s_data (V2.sample_row ws hs i)) ->
  exists h v,
    In h hs /\ nth_error (row_values ws i) (V2.index h) = Some v
    /\ k = get_column_letter (V2.index h + 1)
    /\ V2.e_header e = V2.name h
    /\ (V2.e_type e, V2.e_value e) = V2.classify v.
Proof.
  rewrite V2_sample_row_entries, in_flat_map.
  intros ([idx v] & Hin & Hce). apply in_enumerate in Hin.
  unfold cell_entries in Hce. cbn [fst snd] in Hce.
  destruct (V2.header_name_at hs idx) as [n|] eqn:Hn; [|contradiction].
  destruct (nonempty n); [|contradiction].
  destruct Hce as [[= <- <-]|[]].
  apply header_name_at_some in Hn as (h & Hh & <- & <-).
  exists h, v. cbn. repeat split; auto. now destruct (V2.classify v).
Qed.

End Records.

(* ================================================================== *)
(** ** The per-workbook analyses and the batch drivers *)
(* ================================================================== *)

Section Analyses.
Import Py Xl Eff.

Lemma release_head p h : release p (p :: h) = h.
Proof. simpl. now rewrite String.eqb_refl. Qed.

Lemma V2_analyze_excel_eq fs p n h :
  V2.analyze_excel fs p n h = (V2_record fs p n, h).
Proof.
  unfold V2.analyze_excel, V2_record, path_exists, V2.try_block,
    bind, modify, load_workbook, worksheet_attr, close, ret, raise.
  destruct (fs p) as [|e|[[ws|t]]]; cbn [negb fst snd active];
    rewrite ?release_head; reflexivity.
Qed.

Lemma V2_run_eq fs files : forall h,
  fst (V2.run fs files h) = map (fun '(p, n) => V2_record fs p n) files.
Proof.
  induction files as [|[p n] files IH]; intros h; simpl; [reflexivity|].
  rewrite V2_analyze_excel_eq.
  specialize (IH h).
  destruct (V2.run fs files h). simpl in *. now f_equal.
Qed.

Lemma Simple_analyze_excel_eq fs p n h :
  Simple.analyze_excel fs p n (h, tt)
  = match fs p with
    | Missing => (Ok None, (h, tt))
    | Unreadable e => (Raised e, (h, tt))
    | Xlsx (mkwb (Chartsheet _)) =>
        (Raised (AttributeError "max_row"), (h, tt))
    | Xlsx (mkwb (Worksheet ws)) =>
        (Ok (Some (Simple.analyze_sheet ws)), (h, tt))
    end.
Proof.
  unfold Simple.analyze_excel, path_exists, bind, load_workbook,
    worksheet_attr, close, ret, raise.
  destruct (fs p) as [|e|[[ws|t]]]; cbn [negb fst snd active];
    rewrite ?release_head; reflexivity.
Qed.


End Analyses.

(* ================================================================== *)
(** ** Type inference *)
(* ================================================================== *)

Section TypeInference.
Import Py Xl.

(** C1 (as amended): the type tag of a cell value is fixed by its kind
    alone, the same in the typed records of the v2 script and in
    [get_type_name]: absent gives "empty", text "string", a whole number
    "integer", a float "number", a calendar value "date/datetime" shown
    as YYYY-MM-DD HH:MM:SS, nineteen characters with the time always
    present, and any other scalar the name of its own type. *)
Theorem type_tag_by_kind (v : value) :
  fst (V2.classify v) = Summary.get_type_name v
  /\ match v with
     | VNone => V2.classify v = ("empty", VNone)
     | VStr _ => V2.classify v = ("string", v)
     | VBool _ | VInt _ => V2.classify v = ("integer", v)
     | VFloat _ => V2.classify v = ("number", v)
     | VTemporal x =>
         V2.classify v = ("date/datetime", VStr (date_time_text x))
         /\ (calendar_fields_fit x = true ->
             String.length (date_time_text x) = 19)
     | VObject o => V2.classify v = (obj_type o, VStr (obj_str o))
     end.
Proof.
  destruct v as [|s|b|z|f|x|o]; split; try reflexivity.
  split; [|apply date_time_text_length].
  unfold V2.classify. cbn [is_none isinstance_str isinstance_int
    isinstance_float has_strftime value_strftime].
  now rewrite strftime_date_time.
Qed.

Lemma type_tag_by_kind_witness :
  String.length
    (date_time_text (TDatetime (mkdate 2024 1 15) (mktime 13 5 9 0))) = 19.
Proof.
  apply (proj2 (proj2 (type_tag_by_kind
           (VTemporal (TDatetime (mkdate 2024 1 15) (mktime 13 5 9 0)))))).
  reflexivity.
Defined.

(** C1, as first stated, fails at midnight: the tag is not "date" and the
    time of day is not dropped. *)
Lemma midnight_is_not_a_bare_date :
  V2.classify midnight = ("date/datetime", VStr "2024-01-15 00:00:00")
  /\ Summary.get_type_name midnight = "date/datetime"
  /\ fst (V2.classify midnight) <> "date"
  /\ snd (V2.classify midnight) <> VStr "2024-01-15".
Proof. repeat split; try reflexivity; vm_compute; discriminate. Qed.

(** C10: a boolean is caught by the whole-number test, so it is tagged
    "integer"; and no entry of a typed record is tagged "bool" or
    "boolean" unless a foreign scalar in the row names its own type so. *)
Theorem booleans_are_tagged_integer (b : bool) :
  Summary.get_type_name (VBool b) = "integer"
  /\ V2.classify (VBool b) = ("integer", VBool b)
  /\ forall ws hs i k e,
       In (k, e) (V2.s_data (V2.sample_row ws hs i)) ->
       (forall o, In (VObject o) (row_values ws i) ->
                  obj_type o <> "bool" /\ obj_type o <> "boolean") ->
       V2.e_type e <> "bool" /\ V2.e_type e <> "boolean".
Proof.
  split; [reflexivity|]. split; [reflexivity|].
  intros ws hs i k e Hin Hobj.
  apply V2_sample_row_entry in Hin as (h & v & _ & Hv & _ & _ & Hc).
  apply nth_error_In in Hv.
  apply (f_equal fst) in Hc. cbn [fst] in Hc. rewrite Hc.
  destruct v as [|s|c|z|f|x|o]; cbn; try (split; discriminate).
  now apply Hobj.
Qed.

Lemma booleans_are_tagged_integer_witness :
  V2.e_type (V2.mkentry "paid" (VBool true) "integer") <> "bool"
  /\ V2.e_type (V2.mkentry "paid" (VBool true) "integer") <> "boolean".
Proof.
  apply (proj2 (proj2 (booleans_are_tagged_integer true))
           gap_sheet (V2.get_headers gap_sheet 1) 2 "C").
  - vm_compute. tauto.
  - intros o Ho. vm_compute in Ho.
    repeat (destruct Ho as [Ho|Ho]; [discriminate|]). contradiction.
Defined.

End TypeInference.

(* ================================================================== *)
(** ** Header detection *)
(* ================================================================== *)

Section Detection.
Import Py Xl Eff.

(** On an examined row whose cells all print visibly, the count of the v2
    detector is the number of meaningful cells. *)
Lemma V2_count_is_meaningful ws j :
  1 <= j <= Nat.min 14 (max_row ws) ->
  Forall (fun v => printable v = true) (row_values ws j) ->
  V2_count ws j = meaningful (row_values ws j).
Proof.
  intros Hj Hp. rewrite V2_count_row by lia. now apply V2_count_dumped_row.
Qed.

(** C4: among the examined rows that reach the threshold, the v2 detector
    returns one of greatest count, and of those the one with the lowest
    row number; it returns nothing only when no examined row reaches the
    threshold.  This holds of the count the script computes and, the
    cells of the examined rows printing visibly, of the number of
    meaningful cells: not absent and, when textual, not blank after
    trimming. *)
Theorem best_qualifying_row (ws : worksheet) :
  match V2.detect_header ws with
  | Some i =>
      1 <= i <= Nat.min 14 (max_row ws)
      /\ 3 <= V2_count ws i
      /\ (forall j, 1 <= j <= Nat.min 14 (max_row ws) ->
                    V2_count ws j <= V2_count ws i)
      /\ (forall j, 1 <= j <= Nat.min 14 (max_row ws) ->
                    V2_count ws j = V2_count ws i -> i <= j)
  | None =>
      forall j, 1 <= j <= Nat.min 14 (max_row ws) -> V2_count ws j < 3
  end
  /\ ((forall j, 1 <= j <= Nat.min 14 (max_row ws) ->
                 Forall (fun v => printable v = true) (row_values ws j)) ->
      match V2.detect_header ws with
      | Some i =>
          1 <= i <= Nat.min 14 (max_row ws)
          /\ 3 <= meaningful (row_values ws i)
          /\ (forall j, 1 <= j <= Nat.min 14 (max_row ws) ->
                        meaningful (row_values ws j)
                        <= meaningful (row_values ws i))
          /\ (forall j, 1 <= j <= Nat.min 14 (max_row ws) ->
                        meaningful (row_values ws j)
                        = meaningful (row_values ws i) -> i <= j)
      | None =>
          forall j, 1 <= j <= Nat.min 14 (max_row ws) ->
                    meaningful (row_values ws j) < 3
      end).
Proof.
  assert (Hcount :
    match V2.detect_header ws with
    | Some i =>
        1 <= i <= Nat.min 14 (max_row ws)
        /\ 3 <= V2_count ws i
        /\ (forall j, 1 <= j <= Nat.min 14 (max_row ws) ->
                      V2_count ws j <= V2_count ws i)
        /\ (forall j, 1 <= j <= Nat.min 14 (max_row ws) ->
                      V2_count ws j = V2_count ws i -> i <= j)
    | None =>
        forall j, 1 <= j <= Nat.min 14 (max_row ws) -> V2_count ws j < 3
    end).
  { pose proof (V2_detect_spec ws) as H.
    destruct (V2.detect_header ws) as [i|]; [|exact H].
    destruct H as (Hi & H3 & Hall & Hbefore).
    repeat (split; [assumption|]).
    intros j Hj Heq. destruct (Nat.le_gt_cases i j) as [|Hlt]; [assumption|].
    specialize (Hbefore j ltac:(lia)). lia. }
  split; [exact Hcount|]. intros Hp.
  destruct (V2.detect_header ws) as [i|].
  - destruct Hcount as (Hi & H3 & Hall & Hfirst).
    rewrite <- (V2_count_is_meaningful ws i Hi (Hp i Hi)).
    split; [assumption|]. split; [assumption|]. split.
    + intros j Hj. rewrite <- (V2_count_is_meaningful ws j Hj (Hp j Hj)).
      now apply Hall.
    + intros j Hj. rewrite <- (V2_count_is_meaningful ws j Hj (Hp j Hj)).
      now apply Hfirst.
  - intros j Hj. rewrite <- (V2_count_is_meaningful ws j Hj (Hp j Hj)).
    now apply Hcount.
Qed.

Lemma best_qualifying_row_witness :
  V2.detect_header tie_sheet = Some 1
  /\ meaningful (row_values tie_sheet 1) = meaningful (row_values tie_sheet 2)
  /\ 3 <= meaningful (row_values tie_sheet 1)
  /\ (forall j, 1 <= j <= Nat.min 14 (max_row tie_sheet) ->
                meaningful (row_values tie_sheet j)
                <= meaningful (row_values tie_sheet 1)).
Proof.
  split; [reflexivity|]. split; [reflexivity|].
  assert (Hp : forall j, 1 <= j <= Nat.min 14 (max_row tie_sheet) ->
                 Forall (fun v => printable v = true) (row_values tie_sheet j)).
  { intros j Hj. change (Nat.min 14 (max_row tie_sheet)) with 2 in Hj.
    assert (j = 1 \/ j = 2) as [-> | ->] by lia; repeat constructor. }
  pose proof (proj2 (best_qualifying_row tie_sheet) Hp) as H.
  change (V2.detect_header tie_sheet) with (Some 1) in H.
  destruct H as (_ & H3 & Hall & _). split; assumption.
Defined.

(** The v2 detector picks an examined row that reaches the threshold when
    no earlier examined row reaches it and no examined row exceeds it. *)
Lemma V2_detect_selects ws i :
  1 <= i <= Nat.min 14 (max_row ws) -> 3 <= V2_count ws i ->
  (forall j, 1 <= j < i -> V2_count ws j < V2_count ws i) ->
  (forall j, 1 <= j <= Nat.min 14 (max_row ws) ->
             V2_count ws j <= V2_count ws i) ->
  V2.detect_header ws = Some i.
Proof.
  intros Hi H3 Hbefore Hall. pose proof (V2_detect_spec ws) as H.
  destruct (V2.detect_header ws) as [k|].
  - destruct H as (Hk & Hk3 & Hkall & Hkbefore). f_equal.
    destruct (Nat.lt_trichotomy k i) as [Hlt|[Heq|Hgt]]; [|assumption|].
    + specialize (Hbefore k ltac:(lia)). specialize (Hkall i Hi). lia.
    + specialize (Hkbefore i ltac:(lia)). specialize (Hall k Hk). lia.
  - specialize (H i Hi). lia.
Qed.

Lemma Simple_detect_selects ws i :
  1 <= i <= 20 -> 3 <= text_count (row_values ws i) ->
  (forall j, 1 <= j < i -> text_count (row_values ws j) < 3) ->
  Simple.detect_header ws = Some i.
Proof.
  intros Hi H3 Hbefore. pose proof (Simple_detect_spec ws) as H.
  destruct (Simple.detect_header ws) as [k|].
  - destruct H as (Hk & Hk3 & Hkbefore). f_equal.
    destruct (Nat.lt_trichotomy k i) as [Hlt|[Heq|Hgt]]; [|assumption|].
    + specialize (Hbefore k ltac:(lia)). lia.
    + specialize (Hkbefore i ltac:(lia)). lia.
  - specialize (H i Hi). lia.
Qed.

Lemma Summary_detect_selects ws i :
  1 <= i <= Nat.min 14 (max_row ws) -> Summary_candidate ws i = true ->
  (forall j, 1 <= j < i -> Summary_candidate ws j = false) ->
  Summary.detect_header ws = Some i.
Proof.
  intros Hi Hc Hbefore. pose proof (Summary_detect_spec ws) as H.
  destruct (Summary.detect_header ws) as [k|].
  - destruct H as (Hk & Hkc & Hkbefore). f_equal.
    destruct (Nat.lt_trichotomy k i) as [Hlt|[Heq|Hgt]]; [|assumption|].
    + specialize (Hbefore k ltac:(lia)). congruence.
    + specialize (Hkbefore i ltac:(lia)). congruence.
  - specialize (H i Hi). congruence.
Qed.

(** C2 (as amended): the v2 detector counts, in an examined row whose
    cells all print visibly, the cells that are not absent and, when
    textual, not blank after trimming, numbers included; the simple
    detector counts the non-blank text cells only.  In both, a row
    counted at exactly 3 is selected when no earlier examined row reaches
    the threshold (and, for v2, none exceeds 3), and a row counted at
    exactly 2 is never selected. *)
Theorem meaningful_count_and_threshold (ws : worksheet) (i : nat) :
  (1 <= i <= Nat.min 14 (max_row ws) ->
   Forall (fun v => printable v = true) (row_values ws i) ->
   V2_count ws i = meaningful (row_values ws i))
  /\ (1 <= i <= Nat.min 14 (max_row ws) -> V2_count ws i = 3 ->
      (forall j, 1 <= j < i -> V2_count ws j < 3) ->
      (forall j, 1 <= j <= Nat.min 14 (max_row ws) -> V2_count ws j <= 3) ->
      V2.detect_header ws = Some i)
  /\ (V2_count ws i = 2 -> V2.detect_header ws <> Some i)
  /\ Simple.non_none_count (row_values ws i) = text_count (row_values ws i)
  /\ (1 <= i <= 20 -> text_count (row_values ws i) = 3 ->
      (forall j, 1 <= j < i -> text_count (row_values ws j) < 3) ->
      Simple.detect_header ws = Some i)
  /\ (text_count (row_values ws i) = 2 -> Simple.detect_header ws <> Some i).
Proof.
  split; [|split; [|split; [|split; [|split]]]].
  - intros Hi Hp. rewrite V2_count_row by lia. now apply V2_count_dumped_row.
  - intros Hi H3 Hbefore Hall. apply V2_detect_selects; auto; try lia.
    + intros j Hj. specialize (Hbefore j Hj). lia.
    + intros j Hj. specialize (Hall j Hj). lia.
  - intros H2 Hd. pose proof (V2_detect_spec ws) as H. rewrite Hd in H. lia.
  - apply Simple_count_text.
  - intros Hi H3 Hbefore. apply Simple_detect_selects; auto. lia.
  - intros H2 Hd. pose proof (Simple_detect_spec ws) as H. rewrite Hd in H. lia.
Qed.

Lemma meaningful_count_and_threshold_witness :
  V2_count invoice_sheet 2 = meaningful (row_values invoice_sheet 2)
  /\ V2.detect_header invoice_sheet = Some 2
  /\ V2.detect_header numbers_sheet = Some 1
  /\ Simple.detect_header invoice_sheet = Some 2
  /\ V2.detect_header (mkws "Two" [[VStr "a"; VInt 1; VNone]]) <> Some 1
  /\ Simple.detect_header (mkws "Two" [[VStr "a"; VStr "b"; VInt 1]]) <> Some 1.
Proof.
  split; [|split; [|split; [|split; [|split]]]].
  - apply (proj1 (meaningful_count_and_threshold invoice_sheet 2)).
    + vm_compute. lia.
    + repeat constructor.
  - apply (proj1 (proj2 (meaningful_count_and_threshold invoice_sheet 2))).
    + vm_compute. lia.
    + reflexivity.
    + intros j Hj. assert (j = 1) as -> by lia. vm_compute. lia.
    + intros j Hj. change (Nat.min 14 (max_row invoice_sheet)) with 3 in Hj.
      assert (j = 1 \/ j = 2 \/ j = 3) as [->|[->| ->]] by lia;
        vm_compute; lia.
  - apply (proj1 (proj2 (meaningful_count_and_threshold numbers_sheet 1))).
    + vm_compute. lia.
    + reflexivity.
    + intros j Hj. lia.
    + intros j Hj. change (Nat.min 14 (max_row numbers_sheet)) with 1 in Hj.
      assert (j = 1) as -> by lia. vm_compute. lia.
  - apply (proj1 (proj2 (proj2 (proj2 (proj2
             (meaningful_count_and_threshold invoice_sheet 2)))))).
    + lia.
    + reflexivity.
    + intros j Hj. assert (j = 1) as -> by lia. vm_compute. lia.
  - apply (proj1 (proj2 (proj2
             (meaningful_count_and_threshold
                (mkws "Two" [[VStr "a"; VInt 1; VNone]]) 1)))).
    reflexivity.
  - apply (proj2 (proj2 (proj2 (proj2 (proj2
             (meaningful_count_and_threshold
                (mkws "Two" [[VStr "a"; VStr "b"; VInt 1]]) 1)))))).
    reflexivity.
Defined.

(** C2, as first stated, fails in the simple variant: a row of three
    numbers has three meaningful cells, is examined, and is not taken. *)
Lemma numbers_do_not_count_in_simple_variant :
  meaningful (row_values numbers_sheet 1) = 3
  /\ Simple.non_none_count (row_values numbers_sheet 1) = 0
  /\ Simple.detect_header numbers_sheet = None
  /\ V2.detect_header numbers_sheet = Some 1.
Proof. repeat split; vm_compute; reflexivity. Qed.

(** C3 (as amended): the stricter detectors (v2 and summary) examine rows
    1 .. min(14, total rows), the bound 15 of their loops being exclusive,
    and the simple detector rows 1 .. min(20, total rows).  No row beyond
    is ever selected; row 14 (row 20 in the simple variant) is examined
    and is selected when it qualifies and no earlier row does better. *)
Theorem scan_bounds (ws : worksheet) :
  (forall i, V2.detect_header ws = Some i ->
             1 <= i <= Nat.min 14 (max_row ws))
  /\ (forall i, Summary.detect_header ws = Some i ->
                1 <= i <= Nat.min 14 (max_row ws))
  /\ (forall i, Simple.detect_header ws = Some i ->
                1 <= i <= Nat.min 20 (max_row ws))
  /\ (14 <= max_row ws -> 3 <= V2_count ws 14 ->
      (forall j, 1 <= j < 14 -> V2_count ws j < V2_count ws 14) ->
      V2.detect_header ws = Some 14)
  /\ (14 <= max_row ws -> Summary_candidate ws 14 = true ->
      (forall j, 1 <= j < 14 -> Summary_candidate ws j = false) ->
      Summary.detect_header ws = Some 14)
  /\ (3 <= text_count (row_values ws 20) ->
      (forall j, 1 <= j < 20 -> text_count (row_values ws j) < 3) ->
      Simple.detect_header ws = Some 20).
Proof.
  split; [|split; [|split; [|split; [|split]]]].
  - intros i Hd. pose proof (V2_detect_spec ws) as H. rewrite Hd in H. tauto.
  - intros i Hd. pose proof (Summary_detect_spec ws) as H. rewrite Hd in H.
    tauto.
  - intros i Hd. pose proof (Simple_detect_spec ws) as H. rewrite Hd in H.
    tauto.
  - intros Hm H3 Hbefore. apply V2_detect_selects; auto; [lia|].
    intros j Hj. destruct (Nat.eq_dec j 14) as [->|]; [lia|].
    specialize (Hbefore j ltac:(lia)). lia.
  - intros Hm Hc Hbefore. apply Summary_detect_selects; auto. lia.
  - intros H3 Hbefore. apply Simple_detect_selects; auto. lia.
Qed.

Lemma all_below (p : nat -> bool) n :
  forallb p (seq 1 n) = true -> forall j, 1 <= j < S n -> p j = true.
Proof.
  intros H j Hj. rewrite forallb_forall in H. apply H. apply in_seq. lia.
Qed.

Lemma scan_bounds_witness :
  V2.detect_header (late_header_sheet 14) = Some 14
  /\ Summary.detect_header (late_header_sheet 14) = Some 14
  /\ Simple.detect_header (late_header_sheet 20) = Some 20
  /\ 1 <= 2 <= Nat.min 14 (max_row invoice_sheet).
Proof.
  split; [|split; [|split]].
  - apply (proj1 (proj2 (proj2 (proj2 (scan_bounds (late_header_sheet 14)))))).
    + vm_compute. lia.
    + vm_compute. lia.
    + intros j Hj. apply Nat.ltb_lt.
      refine (all_below (fun j => (V2_count (late_header_sheet 14) j
                                   <? V2_count (late_header_sheet 14) 14)%nat)
                13 _ j _); [vm_compute; reflexivity | lia].
  - apply (proj1 (proj2 (proj2 (proj2 (proj2
             (scan_bounds (late_header_sheet 14))))))).
    + vm_compute. lia.
    + reflexivity.
    + intros j Hj. apply negb_true_iff.
      refine (all_below (fun j => negb (Summary_candidate
                                          (late_header_sheet 14) j))
                13 _ j _); [vm_compute; reflexivity | lia].
  - apply (proj2 (proj2 (proj2 (proj2 (proj2
             (scan_bounds (late_header_sheet 20))))))).
    + vm_compute. lia.
    + intros j Hj. apply Nat.ltb_lt.
      refine (all_below (fun j => (text_count (row_values
                                     (late_header_sheet 20) j) <? 3)%nat)
                19 _ j _); [vm_compute; reflexivity | lia].
  - apply (proj1 (scan_bounds invoice_sheet) 2). reflexivity.
Defined.

(** C3, as first stated, fails at row 15: on a sheet of fifteen rows whose
    only qualifying row is the fifteenth, the stricter detectors find
    nothing. *)
Lemma row_15_is_not_examined :
  max_row (late_header_sheet 15) = 15
  /\ meaningful (row_values (late_header_sheet 15) 15) = 3
  /\ V2_count (late_header_sheet 15) 15 = 3
  /\ Summary_candidate (late_header_sheet 15) 15 = true
  /\ V2.detect_header (late_header_sheet 15) = None
  /\ Summary.detect_header (late_header_sheet 15) = None.
Proof. repeat split; vm_compute; reflexivity. Qed.

(** C6: when no examined row reaches the threshold the detector returns
    nothing, the caller takes row 1 as the header row, and extraction goes
    on from that row: the header fields are read from row 1 and the
    sample rows start at row 2. *)
Theorem no_header_falls_back_to_row_1 (ws : worksheet) :
  ((forall j, 1 <= j <= Nat.min 14 (max_row ws) -> V2_count ws j < 3) ->
   V2.detect_header ws = None
   /\ V2.header_row_of ws = 1
   /\ forall fs p n h,
        fs p = Xlsx (mkwb (Worksheet ws)) ->
        let r := fst (V2.analyze_excel fs p n h) in
        V2.r_error r = None
        /\ V2.r_header_row r = Some 1
        /\ V2.r_headers r = V2.get_headers ws 1
        /\ V2.r_sample_data r = V2.sample_data ws (V2.get_headers ws 1) 1)
  /\ ((forall j, 1 <= j <= 20 -> text_count (row_values ws j) < 3) ->
      Simple.detect_header ws = None
      /\ Simple.header_row_of ws = 1
      /\ forall fs p n h,
           fs p = Xlsx (mkwb (Worksheet ws)) ->
           exists rep,
             fst (Simple.analyze_excel fs p n (h, tt)) = Ok (Some rep)
             /\ Simple.header_row rep = 1
             /\ Simple.headers rep = Simple.get_headers ws 1).
Proof.
  split.
  - intros Hnone.
    assert (Hd : V2.detect_header ws = None).
    { pose proof (V2_detect_spec ws) as H.
      destruct (V2.detect_header ws) as [i|]; [|reflexivity].
      destruct H as (Hi & H3 & _). specialize (Hnone i Hi). lia. }
    assert (Hr : V2.header_row_of ws = 1)
      by (unfold V2.header_row_of; now rewrite Hd).
    split; [assumption|]. split; [assumption|].
    intros fs p n h Hfs. rewrite V2_analyze_excel_eq. cbn [fst].
    unfold V2_record. rewrite Hfs. cbn. rewrite Hr. repeat split.
  - intros Hnone.
    assert (Hd : Simple.detect_header ws = None).
    { pose proof (Simple_detect_spec ws) as H.
      destruct (Simple.detect_header ws) as [i|]; [|reflexivity].
      destruct H as (Hi & H3 & _). specialize (Hnone i ltac:(lia)). lia. }
    assert (Hr : Simple.header_row_of ws = 1)
      by (unfold Simple.header_row_of; now rewrite Hd).
    split; [assumption|]. split; [assumption|].
    intros fs p n h Hfs. rewrite Simple_analyze_excel_eq, Hfs.
    eexists. split; [reflexivity|].
    unfold Simple.analyze_sheet. cbn. now rewrite Hr.
Qed.

Lemma no_header_falls_back_to_row_1_witness :
  V2.header_row_of (mkws "Two" [[VStr "a"; VInt 1; VNone]]) = 1
  /\ Simple.header_row_of numbers_sheet = 1.
Proof.
  split.
  - apply (proj1 (no_header_falls_back_to_row_1
                    (mkws "Two" [[VStr "a"; VInt 1; VNone]]))).
    intros j Hj.
    change (Nat.min 14 (max_row (mkws "Two" [[VStr "a"; VInt 1; VNone]])))
      with 1 in Hj.
    assert (j = 1) as -> by lia. vm_compute. lia.
  - apply (proj2 (no_header_falls_back_to_row_1 numbers_sheet)).
    intros j Hj. apply Nat.ltb_lt.
    refine (all_below (fun j => (text_count (row_values numbers_sheet j)
                                 <? 3)%nat)
              20 _ j _); [vm_compute; reflexivity | lia].
Defined.

End Detection.

Section HeaderShape.
Import Py Xl.

Lemma long_cell_spec v :
  long_cell v = true
  <-> truthy v = true
      /\ (100 < String.length (strip (str v))
          \/ 2 < count newline (strip (str v))).
Proof.
  unfold long_cell. rewrite andb_true_iff, orb_true_iff, !Nat.ltb_lt. tauto.
Qed.

(** An empty cell of a standard kind has a short text of one line. *)
Lemma falsy_cell_is_short v :
  truthy v = false ->
  match v with VFloat _ | VObject _ => False | _ => True end ->
  String.length (strip (str v)) <= 100 /\ count newline (strip (str v)) <= 2.
Proof.
  destruct v as [|s|[|]|z|f|x|o]; cbn [truthy]; intros Hf Hk;
    try discriminate; try contradiction.
  - vm_compute. lia.
  - destruct s; [|discriminate]. vm_compute. lia.
  - vm_compute. lia.
  - apply negb_false_iff, Z.eqb_eq in Hf. subst z. vm_compute. lia.
Qed.

(** C8: in the summary variant a row with at least 3 non-empty cells is
    still not taken as a header when the text of one of its cells, once
    trimmed, is longer than 100 characters or holds more than 2 line
    feeds (the script looks at the non-empty cells; an empty float or
    foreign scalar apart, no other cell can be that long); when every
    non-empty cell stays within both limits the row is a candidate, so
    detection succeeds at that row or at an earlier candidate, and at
    that row when there is none before it. *)
Theorem long_cells_reject_header_candidate (ws : worksheet) (i : nat) :
  ((exists v, In v (row_values ws i)
              /\ match v with
                 | VFloat _ | VObject _ => truthy v = true
                 | _ => True
                 end
              /\ (100 < String.length (strip (str v))
                  \/ 2 < count newline (strip (str v)))) ->
   Summary.looks_like_header (row_values ws i) = false
   /\ Summary.detect_header ws <> Some i)
  /\ (1 <= i <= Nat.min 14 (max_row ws) ->
      3 <= Summary.non_empty (row_values ws i) ->
      (forall v, In v (row_values ws i) -> truthy v = true ->
                 String.length (strip (str v)) <= 100
                 /\ count newline (strip (str v)) <= 2) ->
      Summary.looks_like_header (row_values ws i) = true
      /\ (exists j, j <= i /\ Summary.detect_header ws = Some j)
      /\ ((forall j, 1 <= j < i -> Summary_candidate ws j = false) ->
          Summary.detect_header ws = Some i)).
Proof.
  split.
  - intros (v & Hin & Hkind & Hlong).
    assert (Ht : truthy v = true).
    { destruct (truthy v) eqn:Ht; [reflexivity|].
      assert (Hk : match v with VFloat _ | VObject _ => False | _ => True end)
        by (destruct v; auto; congruence).
      pose proof (falsy_cell_is_short v Ht Hk). lia. }
    assert (Hl : Summary.looks_like_header (row_values ws i) = false).
    { rewrite looks_like_header_spec. apply not_true_iff_false.
      rewrite forallb_forall. intros H. specialize (H v Hin).
      apply negb_true_iff in H.
      assert (long_cell v = true) by (apply long_cell_spec; auto). congruence. }
    split; [assumption|]. intros Hd.
    pose proof (Summary_detect_spec ws) as H. rewrite Hd in H.
    destruct H as (_ & Hc & _). unfold Summary_candidate in Hc.
    rewrite Hl, andb_false_r in Hc. discriminate.
  - intros Hi H3 Hshort.
    assert (Hl : Summary.looks_like_header (row_values ws i) = true).
    { rewrite looks_like_header_spec. apply forallb_forall. intros v Hin.
      apply negb_true_iff, not_true_iff_false. intros Hlong.
      apply long_cell_spec in Hlong as (Ht & Hlong).
      specialize (Hshort v Hin Ht). lia. }
    assert (Hc : Summary_candidate ws i = true).
    { unfold Summary_candidate. rewrite Hl, andb_true_r.
      now apply Nat.leb_le. }
    split; [assumption|]. split.
    + pose proof (Summary_detect_spec ws) as H.
      destruct (Summary.detect_header ws) as [k|].
      * destruct H as (Hk & Hkc & Hkb). exists k. split; [|reflexivity].
        destruct (Nat.le_gt_cases k i) as [|Hgt]; [assumption|].
        specialize (Hkb i ltac:(lia)). congruence.
      * specialize (H i Hi). congruence.
    + intros Hbefore. now apply Summary_detect_selects.
Qed.

Lemma long_cells_reject_header_candidate_witness :
  Summary.detect_header wrapped_sheet <> Some 1
  /\ Summary.detect_header wrapped_sheet = Some 2.
Proof.
  split.
  - apply (proj1 (long_cells_reject_header_candidate wrapped_sheet 1)).
    exists (VStr (string_of_list_ascii (repeat "x"%char 101))).
    split; [vm_compute; tauto|]. split; [exact I|].
    left. vm_compute. lia.
  - apply (proj2 (long_cells_reject_header_candidate wrapped_sheet 2)).
    + vm_compute. lia.
    + vm_compute. lia.
    + intros v Hv Ht. vm_compute in Hv.
      destruct Hv as [<-|[<-|[<-|[]]]]; vm_compute; lia.
    + intros j Hj. assert (j = 1) as -> by lia. reflexivity.
Defined.

End HeaderShape.

(* ================================================================== *)
(** ** Batches and open archives *)
(* ================================================================== *)

Section Extraction.
Import Py Xl Eff.

Lemma V2_headers_positional ws hr h :
  In h (V2.get_headers ws hr) ->
  V2.column h = get_column_letter (V2.index h + 1)
  /\ exists v, nth_error (row_values ws hr) (V2.index h) = Some v
               /\ truthy v = true /\ V2.name h = str v.
Proof.
  intros H. apply V2_get_headers_spec in H as (idx & v & Hn & Ht & ->).
  cbn. eauto.
Qed.

(** C7 (as amended): the v2 batch yields one record per item, each the
    record of that item alone whatever came before it.  A missing path
    gives [exists = false], the error and every other field at its
    default; a fault after the existence check gives the error and leaves
    the fields already assigned ([exists = true], and the sheet name when
    the fault comes after it was read) as assigned, every later field at
    its default; a readable worksheet gives a full record without error. *)
Theorem batch_isolates_faults (fs : filesystem) (files : list (string * string))
  (h : handles) :
  fst (V2.run fs files h)
  = map (fun '(p, n) => fst (V2.analyze_excel fs p n [])) files
  /\ (forall p n h', fs p = Missing ->
        fst (V2.analyze_excel fs p n h')
        = V2.set_error (Some "File not found") (V2.initial p n))
  /\ (forall p n h' e, fs p = Unreadable e ->
        fst (V2.analyze_excel fs p n h')
        = V2.set_error (Some (V2.describe e))
            (V2.set_exists true (V2.initial p n)))
  /\ (forall p n h' t, fs p = Xlsx (mkwb (Chartsheet t)) ->
        fst (V2.analyze_excel fs p n h')
        = V2.set_error (Some (V2.describe (AttributeError "max_row")))
            (V2.set_sheet_name (Some t)
               (V2.set_exists true (V2.initial p n))))
  /\ (forall p n h' ws, fs p = Xlsx (mkwb (Worksheet ws)) ->
        let r := fst (V2.analyze_excel fs p n h') in
        V2.r_exists r = true /\ V2.r_error r = None
        /\ V2.r_sheet_name r = Some (title ws)
        /\ V2.r_total_rows r = max_row ws
        /\ V2.r_total_columns r = max_column ws
        /\ V2.r_header_row r = Some (V2.header_row_of ws)
        /\ V2.r_headers r = V2.get_headers ws (V2.header_row_of ws)
        /\ V2.r_first_20_rows r = V2.first_20_rows ws
        /\ V2.r_sample_data r
           = V2.sample_data ws (V2.get_headers ws (V2.header_row_of ws))
                            (V2.header_row_of ws)).
Proof.
  split; [|split; [|split; [|split]]].
  - rewrite V2_run_eq. apply map_ext. intros [p n].
    now rewrite V2_analyze_excel_eq.
  - intros p n h' Hfs. rewrite V2_analyze_excel_eq. unfold V2_record.
    now rewrite Hfs.
  - intros p n h' e Hfs. rewrite V2_analyze_excel_eq. unfold V2_record.
    now rewrite Hfs.
  - intros p n h' t Hfs. rewrite V2_analyze_excel_eq. unfold V2_record.
    now rewrite Hfs.
  - intros p n h' ws Hfs. rewrite V2_analyze_excel_eq. unfold V2_record.
    rewrite Hfs. cbn. repeat split.
Qed.

Lemma batch_isolates_faults_witness :
  fst (V2.analyze_excel disk "nope.xlsx" "N" [])
  = V2.set_error (Some "File not found") (V2.initial "nope.xlsx" "N")
  /\ V2.r_error (fst (V2.analyze_excel disk "a.xlsx" "A" ["c.xlsx"])) = None.
Proof.
  split.
  - apply (proj1 (proj2 (batch_isolates_faults disk [] []))). reflexivity.
  - apply (proj2 (proj2 (proj2 (proj2 (batch_isolates_faults disk [] []))))
             "a.xlsx" "A" ["c.xlsx"] invoice_sheet).
    reflexivity.
Defined.

(** C7, as first stated, fails on a file that exists and cannot be read:
    its record carries the error, yet [exists] has left its default; on a
    chart sheet the sheet name has left its default as well. *)
Lemma fault_after_existence_check_keeps_assigned_fields :
  V2.r_exists (V2.initial "u.xlsx" "U") = false
  /\ V2.r_error (fst (V2.analyze_excel disk "u.xlsx" "U" []))
     = Some "BadZipFile: File is not a zip file"
  /\ V2.r_exists (fst (V2.analyze_excel disk "u.xlsx" "U" [])) = true
  /\ V2.r_sheet_name (fst (V2.analyze_excel disk "c.xlsx" "C" []))
     = Some "Chart1".
Proof. repeat split; vm_compute; reflexivity. Qed.



End Extraction.

(* ================================================================== *)
(** ** A worked example *)
(* ================================================================== *)

Section WorkedExample.
Import Py Xl Eff.

(** The invoice sheet, end to end: the blank first row is passed over,
    row 2 gives the three fields, and row 3 is the one sample row. *)
Example invoice_sheet_analysis :
  V2.analyze_excel disk "a.xlsx" "Invoices" []
  = (V2.mkresult "Invoices" "a.xlsx" true None (Some "Invoices") 3 3 (Some 2)
       [V2.mkheader "A" "Invoice #" 0; V2.mkheader "B" "Date" 1;
        V2.mkheader "C" "Amount" 2]
       [V2.mkdumped 1 [VStr ""; VStr ""; VStr ""];
        V2.mkdumped 2 [VStr "Invoice #"; VStr "Date"; VStr "Amount"];
        V2.mkdumped 3 [VStr "INV-001"; VStr "2024-01-15"; VStr "120.5"]]
       [V2.mksample 3
          [("A", V2.mkentry "Invoice #" (VStr "INV-001") "string");
           ("B", V2.mkentry "Date" (VStr "2024-01-15") "string");
           ("C", V2.mkentry "Amount" (VFloat (mkfloat "120.5" true))
                            "number")]],
     []).
Proof. vm_compute. reflexivity. Qed.

(** A batch of three with a missing file in the middle. *)
Example batch_of_three :
  map (fun r => (V2.r_exists r, V2.r_error r, V2.r_header_row r))
      (fst (V2.run disk [("a.xlsx", "one"); ("nope.xlsx", "two");
                         ("a.xlsx", "three")] []))
  = [(true, None, Some 2); (false, Some "File not found", None);
     (true, None, Some 2)].
Proof. vm_compute. reflexivity. Qed.

End WorkedExample.

(* ================================================================== *)
(** ** Further properties: rows, dumps and header fields *)
(* ================================================================== *)

Section Rows.
Import Py Xl.

(** Every row is read out to the width of the sheet. *)
Lemma row_values_length ws i : List.length (row_values ws i) = max_column ws.
Proof.
  unfold row_values. rewrite length_app, repeat_length.
  assert (H : List.length (nth (i - 1) (grid ws) []) <= max_column ws).
  { unfold max_column.
    destruct (nth_in_or_default (i - 1) (grid ws) []) as [Hin|Hd];
      [|rewrite Hd; simpl; lia].
    pose proof (proj1 (list_max_le (map (@List.length value) (grid ws)) _)
                  (Nat.le_refl _)) as Hall.
    rewrite Forall_forall in Hall.
    specialize (Hall _ (in_map (@List.length value) _ _ Hin)). lia. }
  lia.
Qed.

Lemma max_row_positive ws : 1 <= max_row ws.
Proof. unfold max_row. lia. Qed.

Lemma max_column_positive ws : 1 <= max_column ws.
Proof. unfold max_column. lia. Qed.

Lemma dump_value_dumped v : V2.dump_value v = dumped v.
Proof.
  destruct v as [|s|b|z|f|x|o]; try reflexivity.
  unfold V2.dump_value. cbn [is_none has_strftime value_strftime dumped].
  now rewrite strftime_date.
Qed.

(** X1: the dump of the first rows holds one entry per row up to row 20 or
    the last row, numbered from 1, as wide as the sheet; in it an absent
    cell stays absent, a calendar value is its date without the time of
    day, and any other value is its text. *)
Theorem first_20_rows_shape (ws : worksheet) :
  List.length (V2.first_20_rows ws) = Nat.min 20 (max_row ws)
  /\ forall k, 1 <= k <= Nat.min 20 (max_row ws) ->
       nth_error (V2.first_20_rows ws) (k - 1)
       = Some (V2.mkdumped k (map dumped (row_values ws k)))
       /\ List.length (map dumped (row_values ws k)) = max_column ws.
Proof.
  unfold V2.first_20_rows. split.
  - rewrite length_map. unfold range. rewrite length_seq. lia.
  - intros k Hk. split; [|now rewrite length_map, row_values_length].
    unfold range. rewrite nth_error_map, nth_error_seq.
    destruct (Nat.ltb_spec (k - 1) (Nat.min 21 (max_row ws + 1) - 1)); [|lia].
    cbn [option_map]. replace (1 + (k - 1)) with k by lia. do 2 f_equal.
    apply map_ext. intros v. apply dump_value_dumped.
Qed.

Lemma first_20_rows_shape_witness :
  nth_error (V2.first_20_rows invoice_sheet) (3 - 1)
  = Some (V2.mkdumped 3 (map dumped (row_values invoice_sheet 3)))
  /\ List.length (map dumped (row_values invoice_sheet 3))
     = max_column invoice_sheet.
Proof.
  apply (proj2 (first_20_rows_shape invoice_sheet) 3). vm_compute. lia.
Defined.

End Rows.

Section Fields.
Import Py Xl.

Lemma enumerate_from_as_map {A} (l : list A) (d : A) a :
  enumerate_from a l
  = map (fun i => (i, nth (i - a) l d)) (seq a (List.length l)).
Proof.
  unfold enumerate_from. revert a. induction l as [|x l IH]; intros a; simpl.
  - reflexivity.
  - rewrite Nat.sub_diag. f_equal. rewrite IH. apply map_ext_in.
    intros i Hi. apply in_seq in Hi.
    now replace (i - a) with (S (i - S a)) by lia.
Qed.

Lemma enumerate_as_map {A} (l : list A) (d : A) :
  enumerate l = map (fun i => (i, nth i l d)) (seq 0 (List.length l)).
Proof.
  unfold enumerate. rewrite (enumerate_from_as_map l d 0).
  apply map_ext. intros i. now rewrite Nat.sub_0_r.
Qed.

Lemma flat_map_map {A B C} (f : B -> list C) (g : A -> B) l :
  flat_map f (map g l) = flat_map (fun x => f (g x)) l.
Proof. induction l; simpl; congruence. Qed.

Lemma map_flat_map {A B C} (f : B -> C) (g : A -> list B) l :
  map f (flat_map g l) = flat_map (fun x => map f (g x)) l.
Proof. induction l; simpl; [reflexivity|]. now rewrite map_app, IHl. Qed.

Lemma filter_flat_map {A B} (p : B -> bool) (g : A -> list B) l :
  filter p (flat_map g l) = flat_map (fun x => filter p (g x)) l.
Proof. induction l; simpl; [reflexivity|]. now rewrite filter_app, IHl. Qed.

(** The header fields, column by column. *)
Lemma V2_get_headers_by_column ws hr :
  V2.get_headers ws hr
  = flat_map (field_at (row_values ws hr)) (seq 0 (max_column ws)).
Proof.
  unfold V2.get_headers.
  rewrite (enumerate_as_map _ VNone), flat_map_map, row_values_length.
  apply flat_map_ext. intros i. unfold field_at.
  now destruct (nth i (row_values ws hr) VNone).
Qed.

Lemma in_fields_from row a n h :
  In h (flat_map (field_at row) (seq a n)) ->
  a <= V2.index h < a + n
  /\ V2.column h = get_column_letter (V2.index h + 1).
Proof.
  rewrite in_flat_map. intros (i & Hi & Hh). apply in_seq in Hi.
  unfold field_at in Hh. destruct (truthy _); [|contradiction].
  destruct Hh as [<-|[]]. cbn. auto.
Qed.

Lemma fields_sorted row n : forall a,
  StronglySorted lt (map V2.index (flat_map (field_at row) (seq a n))).
Proof.
  induction n as [|n IH]; intros a; simpl; [constructor|].
  unfold field_at at 1. destruct (truthy _); simpl; [|apply IH].
  constructor; [apply IH|].
  apply Forall_forall. intros i Hi. apply in_map_iff in Hi as (h & <- & Hh).
  apply in_fields_from in Hh. lia.
Qed.

Lemma fields_count row n a :
  List.length (flat_map (field_at row) (seq a n)) <= n.
Proof.
  revert a. induction n as [|n IH]; intros a; simpl; [lia|].
  rewrite length_app. specialize (IH (S a)).
  unfold field_at at 1. destruct (truthy _); simpl; lia.
Qed.

Lemma sorted_indices_distinct l : StronglySorted lt l -> NoDup l.
Proof.
  induction 1 as [|x l Hs IH Hall]; constructor; [|assumption].
  intros Hin. rewrite Forall_forall in Hall. specialize (Hall x Hin). lia.
Qed.

Lemma NoDup_map_injective {A B} (f : A -> B) l :
  (forall x y, f x = f y -> x = y) -> NoDup l -> NoDup (map f l).
Proof.
  intros Hf. induction 1 as [|x l Hx Hl IH]; simpl; constructor; [|assumption].
  intros Hin. apply in_map_iff in Hin as (y & Hy & Hin).
  apply Hf in Hy. now subst.
Qed.

Lemma columns_distinct row n a :
  NoDup (map V2.column (flat_map (field_at row) (seq a n))).
Proof.
  rewrite (map_ext_in _ (fun h => get_column_letter (V2.index h + 1)))
    by (intros h Hh; now apply in_fields_from in Hh).
  rewrite <- (map_map V2.index (fun i => get_column_letter (i + 1))).
  apply NoDup_map_injective; [|apply sorted_indices_distinct, fields_sorted].
  intros x y H. apply get_column_letter_inj in H. lia.
Qed.

(** X2: the header fields come in column order, each at a column of the
    sheet and labelled with the letter of that column, so no two fields
    share a position or a label, and there are at most as many fields as
    columns. *)
Theorem header_fields_in_column_order (ws : worksheet) (hr : nat) :
  StronglySorted lt (map V2.index (V2.get_headers ws hr))
  /\ Forall (fun h => V2.index h < max_column ws
                      /\ V2.column h = get_column_letter (V2.index h + 1))
            (V2.get_headers ws hr)
  /\ NoDup (map V2.column (V2.get_headers ws hr))
  /\ List.length (V2.get_headers ws hr) <= max_column ws.
Proof.
  rewrite V2_get_headers_by_column.
  split; [apply fields_sorted|]. split; [|split].
  - apply Forall_forall. intros h Hh. apply in_fields_from in Hh. split; [lia|tauto].
  - apply columns_distinct.
  - apply fields_count.
Qed.

(** X3: the sample rows are the rows right below the header row, in
    order: three of them, or as many as the sheet has left, none when the
    header row is the last row. *)
Theorem sample_rows_follow_header (ws : worksheet) (hs : list V2.header)
  (hr : nat) :
  map V2.s_row_num (V2.sample_data ws hs hr)
  = seq (hr + 1) (Nat.min 3 (max_row ws - hr)).
Proof.
  unfold V2.sample_data, range. rewrite map_map. cbn [V2.sample_row V2.s_row_num].
  rewrite map_id. f_equal. lia.
Qed.

End Fields.

Section RecordShape.
Import Py Xl.

Lemma header_name_at_field ws hr j :
  V2.header_name_at (V2.get_headers ws hr) j
  = option_map V2.name (hd_error (field_at (row_values ws hr) j)).
Proof.
  unfold V2.header_name_at, field_at.
  destruct (find _ (V2.get_headers ws hr)) as [h|] eqn:E.
  - apply find_some in E as [Hin Hidx]. apply Nat.eqb_eq in Hidx.
    apply V2_get_headers_spec in Hin as (idx & v & Hn & Ht & ->).
    cbn in Hidx. subst idx.
    rewrite (nth_error_nth _ _ VNone Hn), Ht. reflexivity.
  - destruct (truthy (nth j (row_values ws hr) VNone)) eqn:Ht; [|reflexivity].
    exfalso.
    assert (Hj : j < List.length (row_values ws hr)).
    { destruct (Nat.lt_ge_cases j (List.length (row_values ws hr))); auto.
      rewrite nth_overflow in Ht by assumption. discriminate. }
    pose proof (find_none _ _ E
      (V2.mkheader (get_column_letter (j + 1))
                   (str (nth j (row_values ws hr) VNone)) j)) as Hnone.
    cbn in Hnone. rewrite Nat.eqb_refl in Hnone.
    enough (false = true) by discriminate. symmetry. apply Hnone.
    apply V2_get_headers_spec. exists j, (nth j (row_values ws hr) VNone).
    split; [now apply nth_error_nth'|]. auto.
Qed.

Lemma dict_get_present {V} (d : dict V) k v :
  NoDup (dict_keys d) -> In (k, v) d -> dict_get d k = Some v.
Proof.
  induction d as [|[k' v'] d IH]; simpl; intros Hnd Hin; [contradiction|].
  inversion Hnd as [|? ? Hk' Hnd']; subst.
  destruct Hin as [[= -> ->]|Hin].
  - now rewrite String.eqb_refl.
  - destruct (String.eqb_spec k k') as [->|Hne]; [|auto].
    exfalso. apply Hk'. unfold dict_keys. now apply (in_map fst _ (k', v)).
Qed.

(** A typed record, field by field. *)
Lemma V2_sample_row_by_field ws hr i :
  V2.s_data (V2.sample_row ws (V2.get_headers ws hr) i)
  = map (fun h => (V2.column h, entry_for h (row_values ws i)))
        (named_fields (V2.get_headers ws hr)).
Proof.
  rewrite V2_sample_row_entries, (enumerate_as_map _ VNone), flat_map_map.
  rewrite row_values_length, V2_get_headers_by_column.
  unfold named_fields at 1. rewrite filter_flat_map, map_flat_map.
  apply flat_map_ext. intros j.
  rewrite <- V2_get_headers_by_column.
  unfold cell_entries. cbn [fst snd]. rewrite header_name_at_field.
  unfold field_at. destruct (truthy _); cbn; [|reflexivity].
  destruct (nonempty _); reflexivity.
Qed.

(** X4: the typed record of a data row holds exactly one entry for each
    header field with a non-empty name, in column order and under the
    letter of the field's column: the field's name with the type tag and
    display value of the cell at the field's position.  Keys are distinct,
    and looking a field's column up gives that entry. *)
Theorem record_has_one_entry_per_named_field (ws : worksheet) (hr i : nat) :
  V2.s_data (V2.sample_row ws (V2.get_headers ws hr) i)
  = map (fun h => (V2.column h, entry_for h (row_values ws i)))
        (named_fields (V2.get_headers ws hr))
  /\ NoDup (dict_keys (V2.s_data (V2.sample_row ws (V2.get_headers ws hr) i)))
  /\ forall h, In h (named_fields (V2.get_headers ws hr)) ->
       dict_get (V2.s_data (V2.sample_row ws (V2.get_headers ws hr) i))
                (V2.column h)
       = Some (entry_for h (row_values ws i)).
Proof.
  assert (Hnd : NoDup (dict_keys (V2.s_data (V2.sample_row ws
                                    (V2.get_headers ws hr) i)))).
  { rewrite V2_sample_row_by_field. unfold dict_keys. rewrite map_map.
    cbn [fst]. unfold named_fields.
    pose proof (columns_distinct (row_values ws hr) (max_column ws) 0) as Hc.
    rewrite <- V2_get_headers_by_column in Hc. revert Hc. generalize (V2.get_headers ws hr). intros l.
    induction l as [|h l IH]; simpl; intros Hc; [constructor|].
    inversion Hc as [|? ? Hh Hl]; subst.
    destruct (nonempty (V2.name h)); simpl; [|auto].
    constructor; [|auto]. intros Hin. apply Hh.
    apply in_map_iff in Hin as (h' & Heq & Hin').
    apply filter_In in Hin' as [Hin' _]. rewrite <- Heq. now apply in_map. }
  split; [apply V2_sample_row_by_field|]. split; [assumption|].
  intros h Hh. apply dict_get_present; [assumption|].
  rewrite V2_sample_row_by_field.
  now apply (in_map (fun h => (V2.column h, entry_for h (row_values ws i)))).
Qed.

Lemma record_has_one_entry_per_named_field_witness :
  dict_get (V2.s_data (V2.sample_row gap_sheet (V2.get_headers gap_sheet 1) 2))
           "C"
  = Some (V2.mkentry "paid" (VBool true) "integer").
Proof.
  apply (proj2 (proj2 (record_has_one_entry_per_named_field gap_sheet 1 2))
           (V2.mkheader "C" "paid" 2)).
  vm_compute. tauto.
Defined.

End RecordShape.

(* ================================================================== *)
(** ** Which header cells become fields *)
(* ================================================================== *)

Section HeaderFiltering.
Import Py Xl.

Lemma V2_sample_row_keys_distinct ws hr i :
  NoDup (dict_keys (V2.s_data (V2.sample_row ws (V2.get_headers ws hr) i))).
Proof.
  rewrite V2_sample_row_by_field. unfold dict_keys. rewrite map_map.
  cbn [fst]. unfold named_fields.
  pose proof (columns_distinct (row_values ws hr) (max_column ws) 0) as Hc.
  rewrite <- V2_get_headers_by_column in Hc. revert Hc.
  generalize (V2.get_headers ws hr). intros l.
  induction l as [|h l IH]; simpl; intros Hc; [constructor|].
  inversion Hc as [|? ? Hh Hl]; subst.
  destruct (nonempty (V2.name h)); simpl; [|auto].
  constructor; [|auto]. intros Hin. apply Hh.
  apply in_map_iff in Hin as (h' & Heq & Hin').
  apply filter_In in Hin' as [Hin' _]. rewrite <- Heq. now apply in_map.
Qed.

(** A truthy header cell is a field, and with a non-empty name a key of
    every record read under that header row. *)
Lemma V2_truthy_header_kept ws hr idx v :
  nth_error (row_values ws hr) idx = Some v -> truthy v = true ->
  In (V2.mkheader (get_column_letter (idx + 1)) (str v) idx)
     (V2.get_headers ws hr)
  /\ (nonempty (str v) = true ->
      forall s, In s (V2.sample_data ws (V2.get_headers ws hr) hr) ->
        dict_get (V2.s_data s) (get_column_letter (idx + 1))
        = Some (entry_for
                  (V2.mkheader (get_column_letter (idx + 1)) (str v) idx)
                  (row_values ws (V2.s_row_num s)))).
Proof.
  intros Hcell Ht.
  assert (Hin : In (V2.mkheader (get_column_letter (idx + 1)) (str v) idx)
                   (V2.get_headers ws hr))
    by (apply V2_get_headers_spec; eauto).
  split; [assumption|]. intros Hname s Hs.
  unfold V2.sample_data in Hs. apply in_map_iff in Hs as (i & <- & _).
  cbn [V2.sample_row V2.s_row_num].
  change (fold_left (V2.cell_step (V2.get_headers ws hr))
                    (enumerate (row_values ws i)) [])
    with (V2.s_data (V2.sample_row ws (V2.get_headers ws hr) i)).
  apply dict_get_present; [apply V2_sample_row_keys_distinct|].
  rewrite V2_sample_row_by_field.
  apply (in_map (fun h => (V2.column h, entry_for h (row_values ws i)))
                (named_fields (V2.get_headers ws hr))
                (V2.mkheader (get_column_letter (idx + 1)) (str v) idx)).
  apply filter_In. split; assumption.
Qed.

(** C5 (as amended): a column whose header cell is absent or empty (or any
    other falsy value) is no field of the header and no key of any typed
    record.  A header cell that is truthy is a field; so a text cell that
    is not empty is kept even when it holds blanks only, under its own
    text as name, and it is a key of every record.  Every entry of a
    record belongs to one header field and holds the classified cell
    found at that field's column index. *)
Theorem empty_header_columns_are_omitted (ws : worksheet) (hr idx : nat)
  (v : value) :
  nth_error (row_values ws hr) idx = Some v ->
  (truthy v = false ->
   (forall h, In h (V2.get_headers ws hr) -> V2.index h <> idx)
   /\ (forall s, In s (V2.sample_data ws (V2.get_headers ws hr) hr) ->
                 dict_get (V2.s_data s) (get_column_letter (idx + 1)) = None))
  /\ (truthy v = true ->
      In (V2.mkheader (get_column_letter (idx + 1)) (str v) idx)
         (V2.get_headers ws hr)
      /\ (nonempty (str v) = true ->
          forall s, In s (V2.sample_data ws (V2.get_headers ws hr) hr) ->
            dict_get (V2.s_data s) (get_column_letter (idx + 1))
            = Some (entry_for
                      (V2.mkheader (get_column_letter (idx + 1)) (str v) idx)
                      (row_values ws (V2.s_row_num s)))))
  /\ (forall t, v = VStr t -> t <> EmptyString ->
      In (V2.mkheader (get_column_letter (idx + 1)) t idx)
         (V2.get_headers ws hr)
      /\ forall s, In s (V2.sample_data ws (V2.get_headers ws hr) hr) ->
           dict_get (V2.s_data s) (get_column_letter (idx + 1))
           = Some (entry_for (V2.mkheader (get_column_letter (idx + 1)) t idx)
                             (row_values ws (V2.s_row_num s))))
  /\ (forall s k e,
        In s (V2.sample_data ws (V2.get_headers ws hr) hr) ->
        In (k, e) (V2.s_data s) ->
        exists h c,
          In h (V2.get_headers ws hr)
          /\ nth_error (row_values ws (V2.s_row_num s)) (V2.index h) = Some c
          /\ k = V2.column h
          /\ V2.e_header e = V2.name h
          /\ (V2.e_type e, V2.e_value e) = V2.classify c).
Proof.
  intros Hcell. split; [|split; [|split]].
  - intros Hfalsy.
    assert (Hnofield : forall h, In h (V2.get_headers ws hr) ->
                                 V2.index h <> idx).
    { intros h Hh Hidx.
      apply V2_headers_positional in Hh as (_ & c & Hc & Ht & _).
      rewrite Hidx in Hc. congruence. }
    split; [assumption|].
    intros s Hs. unfold V2.sample_data in Hs.
    apply in_map_iff in Hs as (i & <- & _).
    apply dict_get_absent. unfold dict_keys. intros Hk.
    apply in_map_iff in Hk as ([k e] & Hkey & Hin). cbn in Hkey. subst k.
    apply V2_sample_row_entry in Hin as (h & c & Hh & _ & Hk & _).
    apply get_column_letter_inj in Hk. apply (Hnofield h Hh). lia.
  - now apply V2_truthy_header_kept.
  - intros t -> Ht.
    assert (Htruthy : truthy (VStr t) = true) by (destruct t; [congruence|reflexivity]).
    destruct (V2_truthy_header_kept ws hr idx (VStr t) Hcell Htruthy)
      as [Hin Hkey].
    split; [exact Hin|]. apply Hkey. exact Htruthy.
  - intros s k e Hs Hin. unfold V2.sample_data in Hs.
    apply in_map_iff in Hs as (i & <- & _).
    apply V2_sample_row_entry in Hin as (h & c & Hh & Hc & Hk & He & Hcl).
    exists h, c. repeat split; auto.
    apply V2_headers_positional in Hh as (-> & _). exact Hk.
Qed.

Lemma empty_header_columns_are_omitted_witness :
  ((forall h, In h (V2.get_headers gap_sheet 1) -> V2.index h <> 1)
   /\ (forall s, In s (V2.sample_data gap_sheet (V2.get_headers gap_sheet 1) 1) ->
                 dict_get (V2.s_data s) (get_column_letter (1 + 1)) = None))
  /\ (In (V2.mkheader (get_column_letter (0 + 1)) "  " 0)
         (V2.get_headers padded_header_sheet 1)
      /\ forall s,
           In s (V2.sample_data padded_header_sheet
                   (V2.get_headers padded_header_sheet 1) 1) ->
           dict_get (V2.s_data s) (get_column_letter (0 + 1))
           = Some (entry_for (V2.mkheader (get_column_letter (0 + 1)) "  " 0)
                             (row_values padded_header_sheet (V2.s_row_num s)))).
Proof.
  split.
  - apply (proj1 (empty_header_columns_are_omitted gap_sheet 1 1 VNone
                    eq_refl)).
    reflexivity.
  - apply (proj1 (proj2 (proj2 (empty_header_columns_are_omitted
                                  padded_header_sheet 1 0 (VStr "  ")
                                  eq_refl)))
             "  " eq_refl).
    discriminate.
Defined.

(** C5, as first stated, fails on a header cell of blanks: it is a field
    of the header and a key of the record below it. *)
Lemma whitespace_header_is_kept :
  V2.detect_header padded_header_sheet = Some 1
  /\ nth_error (row_values padded_header_sheet 1) 0 = Some (VStr "  ")
  /\ strip "  " = ""
  /\ In (V2.mkheader "A" "  " 0) (V2.get_headers padded_header_sheet 1)
  /\ dict_get (V2.s_data (V2.sample_row padded_header_sheet
                            (V2.get_headers padded_header_sheet 1) 2)) "A"
     = Some (V2.mkentry "  " (VInt 1) "integer").
Proof. repeat split; vm_compute; try reflexivity; tauto. Qed.

End HeaderFiltering.

(* ================================================================== *)
(** ** Further properties: records and batches *)
(* ================================================================== *)

Section Batches.
Import Py Xl Eff.

Lemma first_20_rows_length ws :
  List.length (V2.first_20_rows ws) = Nat.min 20 (max_row ws).
Proof.
  unfold V2.first_20_rows, range. rewrite length_map, length_seq. lia.
Qed.

Lemma V2_header_row_range ws :
  1 <= V2.header_row_of ws <= Nat.min 14 (max_row ws).
Proof.
  unfold V2.header_row_of. pose proof (V2_detect_spec ws) as H.
  pose proof (max_row_positive ws).
  destruct (V2.detect_header ws); [tauto|lia].
Qed.

(** X5: the record of an item always carries the item's name and path,
    and [exists] tells whether the path exists.  It is free of an error
    exactly when the path holds a workbook whose active sheet is a
    worksheet; then the header row lies between 1 and min(14, total rows),
    the dump has min(20, total rows) rows, there are at most 3 sample
    rows and at most as many header fields as columns.  With an error,
    the header row is unset and every list and count is at its default. *)
Theorem analysis_record_invariants (fs : filesystem) (p n : string)
  (h : handles) :
  V2.r_name (fst (V2.analyze_excel fs p n h)) = n
  /\ V2.r_filepath (fst (V2.analyze_excel fs p n h)) = p
  /\ V2.r_exists (fst (V2.analyze_excel fs p n h)) = path_exists fs p
  /\ (V2.r_error (fst (V2.analyze_excel fs p n h)) = None
      <-> exists ws, fs p = Xlsx (mkwb (Worksheet ws)))
  /\ match V2.r_error (fst (V2.analyze_excel fs p n h)) with
     | None =>
         exists hr,
           V2.r_header_row (fst (V2.analyze_excel fs p n h)) = Some hr
           /\ 1 <= hr
              <= Nat.min 14 (V2.r_total_rows (fst (V2.analyze_excel fs p n h)))
           /\ 1 <= V2.r_total_columns (fst (V2.analyze_excel fs p n h))
           /\ List.length (V2.r_first_20_rows (fst (V2.analyze_excel fs p n h)))
              = Nat.min 20 (V2.r_total_rows (fst (V2.analyze_excel fs p n h)))
           /\ List.length (V2.r_sample_data (fst (V2.analyze_excel fs p n h)))
              <= 3
           /\ List.length (V2.r_headers (fst (V2.analyze_excel fs p n h)))
              <= V2.r_total_columns (fst (V2.analyze_excel fs p n h))
     | Some _ =>
         V2.r_header_row (fst (V2.analyze_excel fs p n h)) = None
         /\ V2.r_headers (fst (V2.analyze_excel fs p n h)) = []
         /\ V2.r_first_20_rows (fst (V2.analyze_excel fs p n h)) = []
         /\ V2.r_sample_data (fst (V2.analyze_excel fs p n h)) = []
         /\ V2.r_total_rows (fst (V2.analyze_excel fs p n h)) = 0
         /\ V2.r_total_columns (fst (V2.analyze_excel fs p n h)) = 0
     end.
Proof.
  rewrite V2_analyze_excel_eq. cbn [fst]. unfold V2_record, path_exists.
  destruct (fs p) as [|e|[[ws|t]]]; cbn;
    try (repeat split; try reflexivity; try discriminate;
         intros (ws' & Hws); discriminate).
  repeat split; try reflexivity; eauto.
  exists (V2.header_row_of ws). split; [reflexivity|].
  split; [apply V2_header_row_range|].
  split; [apply max_column_positive|].
  split; [apply first_20_rows_length|]. split.
  - unfold V2.sample_data, range. rewrite length_map, length_seq. lia.
  - rewrite V2_get_headers_by_column. apply fields_count.
Qed.

Lemma Summary_header_row_range ws :
  1 <= Summary.header_row_of ws <= Nat.min 14 (max_row ws).
Proof.
  unfold Summary.header_row_of. pose proof (Summary_detect_spec ws) as H.
  pose proof (max_row_positive ws).
  destruct (Summary.detect_header ws) as [i|]; [|lia].
  destruct (Nat.eqb_spec i 0); [lia|tauto].
Qed.

Lemma Simple_header_row_range ws :
  1 <= Simple.header_row_of ws <= Nat.min 20 (max_row ws).
Proof.
  unfold Simple.header_row_of. pose proof (Simple_detect_spec ws) as H.
  pose proof (max_row_positive ws).
  destruct (Simple.detect_header ws); [tauto|lia].
Qed.

(** X6: in every script the header row that is used, detected or the
    fallback, is a row of the sheet: between 1 and min(14, total rows) in
    the v2 and summary scripts, between 1 and min(20, total rows) in the
    simple one. *)
Theorem header_row_lies_on_sheet (ws : worksheet) :
  1 <= V2.header_row_of ws <= Nat.min 14 (max_row ws)
  /\ 1 <= Summary.header_row_of ws <= Nat.min 14 (max_row ws)
  /\ 1 <= Simple.header_row_of ws <= Nat.min 20 (max_row ws).
Proof.
  split; [apply V2_header_row_range|].
  split; [apply Summary_header_row_range|apply Simple_header_row_range].
Qed.

Lemma V2_run_app fs xs ys : forall h,
  fst (V2.run fs (xs ++ ys) h)
  = (fst (V2.run fs xs h) ++ fst (V2.run fs ys h))%list.
Proof. intros h. now rewrite !V2_run_eq, map_app. Qed.

(** X7: the v2 batch returns one record per item, in the order of the
    items and labelled with each item's own path and name; the records of
    two batches run one after the other are those of the batches run
    apart. *)
Theorem batch_results_in_order (fs : filesystem)
  (xs ys : list (string * string)) (h : handles) :
  fst (V2.run fs (xs ++ ys) h)
  = (fst (V2.run fs xs h) ++ fst (V2.run fs ys h))%list
  /\ map V2.r_filepath (fst (V2.run fs xs h)) = map fst xs
  /\ map V2.r_name (fst (V2.run fs xs h)) = map snd xs.
Proof.
  split; [apply V2_run_app|].
  rewrite V2_run_eq, !map_map.
  split; apply map_ext; intros [p n]; unfold V2_record;
    destruct (fs p) as [|e|[[ws|t]]]; reflexivity.
Qed.


End Batches.

(* ================================================================== *)
(** ** Further properties: the three scripts compared *)
(* ================================================================== *)

Section Compared.
Import Py Xl.

Lemma truthy_header_value v :
  truthy (if is_none v then VStr "" else v) = truthy v.
Proof. now destruct v. Qed.

Lemma str_header_value v :
  truthy v = true -> str (if is_none v then VStr "" else v) = str v.
Proof. now destruct v. Qed.

(** X10: the three scripts read the same header fields off a header row:
    the same positions, column letters and names, in the same order; the
    simple script keeps every column in its list and prints the non-empty
    ones only. *)
Theorem scripts_agree_on_header_fields (ws : worksheet) (hr : nat) :
  map (fun h => (Summary.index h, Summary.column h, Summary.name h))
      (Summary.get_headers ws hr)
  = map (fun h => (V2.index h, V2.column h, V2.name h)) (V2.get_headers ws hr)
  /\ map (fun h => (fst h, str (snd h)))
         (Simple.printed_headers (Simple.analyze_sheet ws))
     = map (fun h => (V2.column h, V2.name h))
           (V2.get_headers ws (Simple.header_row_of ws))
  /\ List.length (Simple.get_headers ws hr) = max_column ws.
Proof.
  split; [|split].
  - unfold Summary.get_headers, V2.get_headers. rewrite !map_flat_map.
    apply flat_map_ext. intros [idx v]. rewrite truthy_header_value.
    destruct (truthy v) eqn:Ht; cbn; [|reflexivity].
    now rewrite str_header_value.
  - cbn [Simple.analyze_sheet Simple.printed_headers].
    unfold Simple.get_headers, V2.get_headers.
    generalize (enumerate (row_values ws (Simple.header_row_of ws))).
    intros l. induction l as [|[idx v] l IH]; [reflexivity|].
    cbn [map filter flat_map snd fst]. rewrite map_app, <- IH.
    destruct (truthy (if is_none v then VStr "" else v)); reflexivity.
  - unfold Simple.get_headers, enumerate, enumerate_from.
    rewrite length_map, length_combine, length_seq, row_values_length. lia.
Qed.

Lemma filter_length_mono {A B} (p : A -> bool) (q : B -> bool) (f : A -> B) l :
  (forall x, p x = true -> q (f x) = true) ->
  List.length (filter p l) <= List.length (filter q (map f l)).
Proof.
  intros H. induction l as [|x l IH]; simpl; [lia|].
  destruct (p x) eqn:Hp.
  - rewrite (H x Hp). simpl. lia.
  - destruct (q (f x)); simpl; lia.
Qed.

Lemma text_count_le_dump row :
  text_count row <= V2.non_none_count (map V2.dump_value row).
Proof.
  apply filter_length_mono. intros v Hv.
  destruct v as [|s| | | | |]; try discriminate. exact Hv.
Qed.

Lemma non_empty_le_dump row :
  Summary.non_empty row <= V2.non_none_count (map V2.dump_value row).
Proof.
  apply filter_length_mono. intros v Hv.
  apply andb_true_iff in Hv as [Ht Hs]. rewrite dump_value_dumped.
  destruct v as [|s|b|z|f|x|o]; try discriminate; cbn in *; try assumption.
  apply strip_solid_head, iso_date_solid.
Qed.

(** The v2 detector finds a header as soon as an examined row reaches the
    threshold. *)
Lemma V2_detects ws i :
  1 <= i <= Nat.min 14 (max_row ws) -> 3 <= V2_count ws i ->
  exists k, V2.detect_header ws = Some k /\ V2_count ws i <= V2_count ws k.
Proof.
  intros Hi H3. pose proof (V2_detect_spec ws) as H.
  destruct (V2.detect_header ws) as [k|].
  - exists k. split; [reflexivity|]. now apply H.
  - specialize (H i Hi). lia.
Qed.

(** X11: the v2 script counts every cell the other two count.  So when
    the summary script detects a header row, or the simple script detects
    one among the first 14 rows, the v2 script detects one too, with a
    count at least that of the other script's row. *)
Theorem v2_detects_when_the_others_do (ws : worksheet) (i : nat) :
  (Summary.detect_header ws = Some i ->
   exists k, V2.detect_header ws = Some k
             /\ 3 <= V2_count ws i <= V2_count ws k)
  /\ (Simple.detect_header ws = Some i -> i <= 14 ->
      exists k, V2.detect_header ws = Some k
                /\ 3 <= V2_count ws i <= V2_count ws k).
Proof.
  split.
  - intros Hd. pose proof (Summary_detect_spec ws) as H. rewrite Hd in H.
    destruct H as (Hi & Hc & _). unfold Summary_candidate in Hc.
    apply andb_true_iff in Hc as [Hc _]. apply Nat.leb_le in Hc.
    assert (H3 : 3 <= V2_count ws i).
    { rewrite V2_count_row by lia.
      pose proof (non_empty_le_dump (row_values ws i)). lia. }
    destruct (V2_detects ws i Hi H3) as (k & Hk & Hle). exists k. auto.
  - intros Hd H14. pose proof (Simple_detect_spec ws) as H. rewrite Hd in H.
    destruct H as (Hi & Hc & _).
    assert (H3 : 3 <= V2_count ws i).
    { rewrite V2_count_row by lia.
      pose proof (text_count_le_dump (row_values ws i)). lia. }
    destruct (V2_detects ws i ltac:(lia) H3) as (k & Hk & Hle). exists k. auto.
Qed.

Lemma v2_detects_when_the_others_do_witness :
  (exists k, V2.detect_header invoice_sheet = Some k
             /\ 3 <= V2_count invoice_sheet 2 <= V2_count invoice_sheet k)
  /\ (exists k, V2.detect_header (late_header_sheet 14) = Some k
                /\ 3 <= V2_count (late_header_sheet 14) 14
                   <= V2_count (late_header_sheet 14) k).
Proof.
  split.
  - apply (proj1 (v2_detects_when_the_others_do invoice_sheet 2)).
    vm_compute. reflexivity.
  - apply (proj2 (v2_detects_when_the_others_do (late_header_sheet 14) 14)).
    + vm_compute. reflexivity.
    + lia.
Defined.

End Compared.

Section ScanReach.
Import Py Xl.

Lemma fold_left_ext_in {A B} (f g : A -> B -> A) l :
  (forall a x, In x l -> f a x = g a x) ->
  forall a, fold_left f l a = fold_left g l a.
Proof.
  induction l as [|x l IH]; intros H a; simpl; [reflexivity|].
  rewrite (H a x) by now left. apply IH. intros a' y Hy. apply H. now right.
Qed.

(** Cells that were never written do not count in any detector. *)
Lemma dump_count_padded row k :
  V2.non_none_count (map V2.dump_value (row ++ repeat VNone k))
  = V2.non_none_count (map V2.dump_value row).
Proof.
  unfold V2.non_none_count.
  rewrite map_app, filter_app, length_app, map_repeat.
  rewrite filter_repeat_false by reflexivity. simpl. lia.
Qed.

Lemma non_empty_padded row k :
  Summary.non_empty (row ++ repeat VNone k) = Summary.non_empty row.
Proof.
  unfold Summary.non_empty.
  rewrite filter_app, filter_repeat_false by reflexivity.
  now rewrite app_nil_r.
Qed.

Lemma looks_like_header_padded row k :
  Summary.looks_like_header (row ++ repeat VNone k)
  = Summary.looks_like_header row.
Proof.
  rewrite !looks_like_header_spec, forallb_app.
  replace (forallb _ (repeat VNone k)) with true; [apply andb_true_r|].
  symmetry. apply forallb_forall. intros v Hv.
  apply repeat_spec in Hv. now subst.
Qed.

Lemma written_cells_agree ws1 ws2 i :
  firstn 14 (grid ws1) = firstn 14 (grid ws2) -> 1 <= i <= 14 ->
  nth (i - 1) (grid ws1) [] = nth (i - 1) (grid ws2) [].
Proof.
  intros Hg Hi.
  pose proof (nth_firstn 14 (grid ws1) (i - 1) []) as H1.
  pose proof (nth_firstn 14 (grid ws2) (i - 1) []) as H2.
  destruct (Nat.ltb_spec (i - 1) 14); [|lia]. congruence.
Qed.

Lemma scan_range_agrees ws1 ws2 :
  firstn 14 (grid ws1) = firstn 14 (grid ws2) ->
  Nat.min 15 (max_row ws1 + 1) = Nat.min 15 (max_row ws2 + 1).
Proof.
  intros Hg. apply (f_equal (@List.length _)) in Hg.
  rewrite !length_firstn in Hg. unfold max_row. lia.
Qed.

(** X12: the v2 and summary detectors read nothing below row 14: two
    sheets with the same first fourteen rows get the same answer, however
    they go on below (and however wide the rows below make the sheet). *)
Theorem detection_reads_first_14_rows_only (ws1 ws2 : worksheet) :
  firstn 14 (grid ws1) = firstn 14 (grid ws2) ->
  V2.detect_header ws1 = V2.detect_header ws2
  /\ Summary.detect_header ws1 = Summary.detect_header ws2.
Proof.
  intros Hg. pose proof (scan_range_agrees ws1 ws2 Hg) as Hr. split.
  - unfold V2.detect_header. rewrite <- Hr. f_equal.
    apply fold_left_ext_in. intros [hr mx] i Hi. apply range_spec in Hi.
    unfold V2.scan_step.
    change (V2.non_none_count (V2.dumped_values (V2.first_20_rows ws1) i))
      with (V2_count ws1 i).
    change (V2.non_none_count (V2.dumped_values (V2.first_20_rows ws2) i))
      with (V2_count ws2 i).
    rewrite !V2_count_row by lia. unfold row_values.
    rewrite !dump_count_padded.
    now rewrite (written_cells_agree ws1 ws2 i Hg) by lia.
  - unfold Summary.detect_header. rewrite <- Hr.
    apply fold_left_ext_in. intros hr i Hi. apply range_spec in Hi.
    unfold Summary.scan_step, row_values.
    rewrite !non_empty_padded, !looks_like_header_padded.
    now rewrite (written_cells_agree ws1 ws2 i Hg) by lia.
Qed.

Lemma detection_reads_first_14_rows_only_witness :
  V2.detect_header (late_header_sheet 15) = V2.detect_header (late_header_sheet 16)
  /\ Summary.detect_header (late_header_sheet 15)
     = Summary.detect_header (late_header_sheet 16).
Proof.
  apply (detection_reads_first_14_rows_only
           (late_header_sheet 15) (late_header_sheet 16)).
  reflexivity.
Defined.

End ScanReach.

(* ================================================================== *)
(** ** Further properties: what the print scripts show *)
(* ================================================================== *)

Section Printed.
Import Py Xl.

Lemma prefix_length n s : String.length (prefix n s) <= n.
Proof.
  revert s. induction n as [|n IH]; intros [|c s]; simpl; try lia.
  specialize (IH s). lia.
Qed.

(** X13: the summary script prints one cell per header field, in the
    order of the fields, each with the type tag of the cell at the
    field's position.  The value shown is never longer than 100
    characters, and an empty cell, a zero and False are all shown as
    None. *)
Theorem printed_data_row_shape (ws : worksheet) (hs : list Summary.header)
  (i : nat) :
  map Summary.p_header (Summary.data_row ws hs i) = hs
  /\ Forall
       (fun c =>
          Summary.p_type c
          = Summary.get_type_name
              (nth (Summary.index (Summary.p_header c)) (row_values ws i) VNone)
          /\ String.length (Summary.p_value c) <= 100
          /\ Summary.p_value c
             = (if truthy (nth (Summary.index (Summary.p_header c))
                               (row_values ws i) VNone)
                then prefix 100
                       (str (nth (Summary.index (Summary.p_header c))
                                 (row_values ws i) VNone))
                else "None"))
       (Summary.data_row ws hs i).
Proof.
  unfold Summary.data_row. split.
  - rewrite map_map. cbn [Summary.p_header]. apply map_id.
  - apply Forall_forall. intros c Hc. apply in_map_iff in Hc as (h & <- & _).
    cbn [Summary.p_header Summary.p_type Summary.p_value].
    split; [reflexivity|]. split; [|reflexivity].
    destruct (truthy _); [apply prefix_length|]. simpl. lia.
Qed.

Lemma data_row_below_sheet ws hs i :
  List.length (grid ws) < i ->
  Forall (fun c => Summary.p_type c = "empty" /\ Summary.p_value c = "None")
         (Summary.data_row ws hs i).
Proof.
  intros Hi. unfold Summary.data_row. rewrite row_values_beyond by assumption.
  apply Forall_forall. intros c Hc. apply in_map_iff in Hc as (h & <- & _).
  cbn [Summary.p_type Summary.p_value].
  assert (Hn : nth (Summary.index h) (repeat VNone (max_column ws)) VNone = VNone).
  { destruct (Nat.lt_ge_cases (Summary.index h) (max_column ws)).
    - now apply nth_repeat_lt.
    - apply nth_overflow. now rewrite repeat_length. }
  rewrite Hn. split; reflexivity.
Qed.

(** X14: in the report of the summary script the first data row has one
    cell per header field; the second data row is there exactly when the
    sheet has a row two below the header row, and then shows the first
    five fields only.  The first data row is read even when the header
    row is the last row of the sheet: every field then shows as empty. *)
Theorem summary_report_rows (ws : worksheet) :
  map Summary.p_header (Summary.first_data_row (Summary.analyze_sheet ws))
  = Summary.headers (Summary.analyze_sheet ws)
  /\ match Summary.second_data_row (Summary.analyze_sheet ws) with
     | Some cells =>
         Summary.header_row (Summary.analyze_sheet ws) + 1 < max_row ws
         /\ map Summary.p_header cells
            = firstn 5 (Summary.headers (Summary.analyze_sheet ws))
     | None => max_row ws <= Summary.header_row (Summary.analyze_sheet ws) + 1
     end
  /\ (Summary.header_row (Summary.analyze_sheet ws) = max_row ws ->
      Forall (fun c => Summary.p_type c = "empty" /\ Summary.p_value c = "None")
             (Summary.first_data_row (Summary.analyze_sheet ws))).
Proof.
  unfold Summary.analyze_sheet.
  cbn [Summary.first_data_row Summary.second_data_row Summary.headers
       Summary.header_row].
  split; [|split].
  - unfold Summary.data_row. rewrite map_map. apply map_id.
  - destruct (Nat.ltb_spec (Summary.header_row_of ws + 1) (max_row ws));
      [|assumption].
    split; [assumption|]. unfold Summary.data_row. rewrite map_map.
    apply map_id.
  - intros Hlast. apply data_row_below_sheet. unfold max_row in Hlast. lia.
Qed.

Lemma summary_report_rows_witness :
  Forall (fun c => Summary.p_type c = "empty" /\ Summary.p_value c = "None")
         (Summary.first_data_row (Summary.analyze_sheet (late_header_sheet 3))).
Proof.
  apply (proj2 (proj2 (summary_report_rows (late_header_sheet 3)))).
  reflexivity.
Defined.

Lemma dtype_is_get_type_name v : Simple.dtype v = Summary.get_type_name v.
Proof. reflexivity. Qed.

Lemma flat_map_ext_in {A B} (f g : A -> list B) l :
  (forall x, In x l -> f x = g x) -> flat_map f l = flat_map g l.
Proof.
  induction l as [|x l IH]; intros H; simpl; [reflexivity|].
  rewrite (H x) by now left. f_equal. apply IH. intros y Hy. apply H. now right.
Qed.

Lemma Simple_get_headers_by_column ws hr :
  Simple.get_headers ws hr
  = map (fun i => (get_column_letter (i + 1),
                   if is_none (nth i (row_values ws hr) VNone) then VStr ""
                   else nth i (row_values ws hr) VNone))
        (seq 0 (max_column ws)).
Proof.
  unfold Simple.get_headers.
  now rewrite (enumerate_as_map _ VNone), map_map, row_values_length.
Qed.

Lemma nth_map_seq {A} (g : nat -> A) n j d :
  j < n -> nth j (map g (seq 0 n)) d = g j.
Proof.
  intros H. rewrite (nth_indep _ d (g 0)) by (rewrite length_map, length_seq; lia).
  now rewrite map_nth, seq_nth by lia.
Qed.

(** The types the simple script prints, field by field. *)
Lemma Simple_data_types_by_field ws hr i :
  map (fun c => (Simple.t_column c, Simple.t_value c))
      (Simple.data_types (Simple.get_headers ws hr) (row_values ws i))
  = map (fun h => (V2.column h, nth (V2.index h) (row_values ws i) VNone))
        (V2.get_headers ws hr).
Proof.
  unfold Simple.data_types.
  rewrite (enumerate_as_map _ (EmptyString, VNone)), flat_map_map.
  rewrite Simple_get_headers_by_column, length_map, length_seq.
  rewrite V2_get_headers_by_column, !map_flat_map.
  apply flat_map_ext_in. intros j Hj. apply in_seq in Hj.
  rewrite nth_map_seq by lia.
  rewrite truthy_header_value, row_values_length.
  destruct (Nat.ltb_spec j (max_column ws)); [|lia].
  unfold field_at. destruct (truthy _); reflexivity.
Qed.

(** X15: the simple script prints the rows right below the header row:
    five of them, or those up to the last row the sheet has by then,
    which is row 20 or the last row of a longer sheet, since the
    detection loop has read every row up to 20.  It prints types only
    with the first of them, for exactly the non-empty header fields, in
    column order, each the tag of the cell at the field's position: the
    tag the other two scripts give that value. *)
Theorem simple_sample_rows_shape (ws : worksheet) (hr : nat) :
  map (fun r => fst (fst r))
      (Simple.sample_rows ws hr (Simple.get_headers ws hr))
  = seq (hr + 1) (Nat.min 5 (Nat.max 20 (max_row ws) - hr))
  /\ Forall
       (fun r =>
          snd (fst r) = row_values ws (fst (fst r))
          /\ (if (fst (fst r) =? hr + 1)%nat
              then map (fun c => (Simple.t_column c, Simple.t_value c)) (snd r)
                   = map (fun h => (V2.column h,
                                    nth (V2.index h)
                                        (row_values ws (hr + 1)) VNone))
                         (V2.get_headers ws hr)
              else snd r = [])
          /\ Forall (fun c => Simple.t_type c
                              = Summary.get_type_name (Simple.t_value c)
                              /\ Simple.t_type c
                                 = fst (V2.classify (Simple.t_value c)))
                    (snd r))
       (Simple.sample_rows ws hr (Simple.get_headers ws hr)).
Proof.
  unfold Simple.sample_rows, Simple.max_row_after_scan. split.
  - rewrite map_map. cbn [fst]. rewrite map_id. unfold range. f_equal. lia.
  - apply Forall_forall. intros r Hr. apply in_map_iff in Hr as (i & <- & _).
    cbn [fst snd]. split; [reflexivity|].
    destruct (Nat.eqb_spec i (hr + 1)) as [->|Hne].
    + split; [apply Simple_data_types_by_field|].
      apply Forall_forall. intros c Hc. unfold Simple.data_types in Hc.
      apply in_flat_map in Hc as ([idx [col hv]] & _ & Hc).
      destruct (_ && _); [|contradiction]. destruct Hc as [<-|[]].
      cbn [Simple.t_type Simple.t_value]. split; [reflexivity|].
      rewrite dtype_is_get_type_name.
      symmetry. now destruct (nth idx (row_values ws (hr + 1)) VNone).
    + split; [reflexivity|constructor].
Qed.

End Printed.

Section Preview.
Import Py Xl.

Lemma preview_values_length row :
  List.length (Summary.preview_values row) = Nat.min 10 (List.length row).
Proof. unfold Summary.preview_values. now rewrite length_map, length_firstn. Qed.

Lemma in_firstn {A} n (l : list A) x : In x (firstn n l) -> In x l.
Proof.
  intros H. rewrite <- (firstn_skipn n l). apply in_or_app. now left.
Qed.

(** X16: the preview of the summary script shows the rows from 1 to 12,
    or to the last row of a shorter sheet; of each it shows the first
    three columns at most, no text longer than 50 characters, an empty
    cell as the empty text, and the ellipsis exactly when the sheet has
    more than three columns. *)
Theorem preview_shape (ws : worksheet) :
  map (fun r => fst (fst r)) (Summary.preview ws)
  = seq 1 (Nat.min 12 (max_row ws))
  /\ Forall
       (fun r =>
          List.length (snd (fst r)) = Nat.min 3 (max_column ws)
          /\ Forall (fun s => String.length s <= 50) (snd (fst r))
          /\ snd r = (3 <? max_column ws)%nat)
       (Summary.preview ws).
Proof.
  unfold Summary.preview. split.
  - rewrite map_map. cbn [fst]. rewrite map_id. unfold range. f_equal. lia.
  - apply Forall_forall. intros r Hr. apply in_map_iff in Hr as (i & <- & _).
    cbn [fst snd]. rewrite length_firstn, preview_values_length,
      row_values_length.
    split; [lia|]. split.
    + apply Forall_forall. intros s Hs. apply in_firstn in Hs.
      unfold Summary.preview_values in Hs.
      apply in_map_iff in Hs as (v & <- & _).
      destruct (truthy v); [apply prefix_length|simpl; lia].
    + destruct (Nat.ltb_spec 3 (Nat.min 10 (max_column ws)));
        destruct (Nat.ltb_spec 3 (max_column ws)); try reflexivity; lia.
Qed.

End Preview.

Section EdgeSheets.
Import Py Xl Eff.

(** X17: the simple detector reads nothing below row 20: two sheets with
    the same first twenty rows get the same answer. *)
Theorem simple_detection_reads_first_20_rows_only (ws1 ws2 : worksheet) :
  firstn 20 (grid ws1) = firstn 20 (grid ws2) ->
  Simple.detect_header ws1 = Simple.detect_header ws2.
Proof.
  intros Hg. rewrite !Simple_detect_unfold.
  apply fold_left_ext_in. intros hr i Hi. apply in_seq in Hi.
  rewrite !Simple_scan_step_first. unfold row_values.
  rewrite !text_count_padded.
  pose proof (nth_firstn 20 (grid ws1) (i - 1) []) as H1.
  pose proof (nth_firstn 20 (grid ws2) (i - 1) []) as H2.
  destruct (Nat.ltb_spec (i - 1) 20); [|lia].
  now replace (nth (i - 1) (grid ws1) []) with (nth (i - 1) (grid ws2) [])
    by congruence.
Qed.

Lemma simple_detection_reads_first_20_rows_only_witness :
  Simple.detect_header (late_header_sheet 21)
  = Simple.detect_header (late_header_sheet 22).
Proof.
  apply (simple_detection_reads_first_20_rows_only
           (late_header_sheet 21) (late_header_sheet 22)).
  reflexivity.
Defined.

Lemma blank_row_values ws i :
  Forall (Forall (fun v => v = VNone)) (grid ws) ->
  Forall (fun v => v = VNone) (row_values ws i).
Proof.
  intros Hb. unfold row_values. apply Forall_app. split.
  - destruct (nth_in_or_default (i - 1) (grid ws) []) as [Hin|Hd].
    + rewrite Forall_forall in Hb. now apply Hb.
    + rewrite Hd. constructor.
  - apply Forall_forall. intros v Hv. now apply repeat_spec in Hv.
Qed.

Lemma blank_row_filter (p : value -> bool) row :
  p VNone = false -> Forall (fun v => v = VNone) row -> filter p row = [].
Proof.
  intros Hp. induction 1 as [|v row Hv _ IH]; simpl; [reflexivity|].
  now rewrite Hv, Hp.
Qed.

(** X18: on a sheet without a single value, of whatever size, including
    the sheet with no cells at all, no script detects a header row; each
    falls back to row 1, and the v2 script reports no header field and
    only empty sample records. *)
Theorem blank_sheet_analysis (ws : worksheet) :
  Forall (Forall (fun v => v = VNone)) (grid ws) ->
  V2.detect_header ws = None
  /\ Summary.detect_header ws = None
  /\ Simple.detect_header ws = None
  /\ V2.header_row_of ws = 1
  /\ V2.get_headers ws 1 = []
  /\ Forall (fun s => V2.s_data s = [])
            (V2.sample_data ws (V2.get_headers ws 1) 1).
Proof.
  intros Hb.
  assert (Hv2 : V2.detect_header ws = None).
  { pose proof (V2_detect_spec ws) as H.
    destruct (V2.detect_header ws) as [i|]; [|reflexivity].
    destruct H as (Hi & H3 & _). rewrite V2_count_row in H3 by lia.
    unfold V2.non_none_count in H3.
    rewrite (blank_row_filter _ (map V2.dump_value (row_values ws i))) in H3;
      [simpl in H3; lia|reflexivity|].
    apply Forall_forall. intros v Hv. apply in_map_iff in Hv as (c & <- & Hc).
    pose proof (blank_row_values ws i Hb) as Hr. rewrite Forall_forall in Hr.
    now rewrite (Hr c Hc). }
  assert (Hsum : Summary.detect_header ws = None).
  { pose proof (Summary_detect_spec ws) as H.
    destruct (Summary.detect_header ws) as [i|]; [|reflexivity].
    destruct H as (_ & Hc & _). unfold Summary_candidate, Summary.non_empty in Hc.
    rewrite blank_row_filter in Hc;
      [discriminate|reflexivity|now apply blank_row_values]. }
  assert (Hsim : Simple.detect_header ws = None).
  { pose proof (Simple_detect_spec ws) as H.
    destruct (Simple.detect_header ws) as [i|]; [|reflexivity].
    destruct H as (_ & H3 & _). unfold text_count in H3.
    rewrite blank_row_filter in H3;
      [simpl in H3; lia|reflexivity|now apply blank_row_values]. }
  assert (Hh : V2.get_headers ws 1 = []).
  { rewrite V2_get_headers_by_column.
    pose proof (blank_row_values ws 1 Hb) as Hr. rewrite Forall_forall in Hr.
    induction (seq 0 (max_column ws)) as [|j l IH]; [reflexivity|].
    simpl. rewrite IH, app_nil_r. unfold field_at.
    destruct (nth_in_or_default j (row_values ws 1) VNone) as [Hin|Hd].
    - now rewrite (Hr _ Hin).
    - now rewrite Hd. }
  repeat (split; [assumption|]). split.
  - unfold V2.header_row_of. now rewrite Hv2.
  - split; [assumption|]. rewrite Hh. apply Forall_forall. intros s Hs.
    unfold V2.sample_data in Hs. apply in_map_iff in Hs as (i & <- & _).
    rewrite V2_sample_row_entries.
    induction (enumerate (row_values ws i)) as [|ic l IH]; [reflexivity|].
    simpl. now rewrite IH.
Qed.

Lemma blank_sheet_analysis_witness :
  V2.get_headers (mkws "Empty" []) 1 = []
  /\ V2.header_row_of (mkws "Blank" [[VNone; VNone]; [VNone]]) = 1.
Proof.
  split.
  - apply (blank_sheet_analysis (mkws "Empty" [])). constructor.
  - apply (blank_sheet_analysis (mkws "Blank" [[VNone; VNone]; [VNone]])).
    repeat constructor.
Defined.

End EdgeSheets.
